(** * Group API handler of go-okta-iam: a shallow embedding and its properties

    Source: [internal/handlers/group/group.go], package [group_handlers].

    The handler layer decodes an HTTP request, forwards it to the group
    service and answers with a success or an error envelope.  The eight
    methods of [Handler] are embedded as computations in a state monad over
    a [World] that holds the receiver, the log sink, the state behind the
    service, the [http.ResponseWriter] of the request and the trace of the
    body decodings and service calls of the invocation.

    The collaborators that the handler only calls are parameters: the
    service ([group_service.Service]), the logger ([zap.SugaredLogger]), the
    types of package [models], and what [encoding/json] decodes into the
    request structs.  Modules follow the Go packages. *)

From Stdlib Require Import String Ascii List ZArith Bool DecimalString.
From ExtLib Require Import Structures.Monad Structures.MonadState.
From ExtLib Require Import Data.Monads.StateMonad.
Import ListNotations.
Import MonadNotation.
Local Open Scope string_scope.
Local Open Scope monad_scope.

Set Implicit Arguments.
Set Warnings "-register-all".

(* ------------------------------------------------------------------ *)
(** ** Go built-ins *)

(** Go's [error] is an interface with the one method [Error() string]; a
    value of it is observed through that method only.  [None : option error]
    is the nil error. *)
Record error : Type := errors_New { Error : string }.

(** [fmt.Sprintf("Group '%s' created successfully", name)]: the one format
    string of the file, with its single [%s] verb filled in. *)
Definition Sprintf_created (name : string) : string :=
  "Group '" ++ name ++ "' created successfully".

(* ------------------------------------------------------------------ *)
(** ** Package [net/http]: status codes and the request *)

Module http.

Definition StatusOK : Z := 200.
Definition StatusCreated : Z := 201.
Definition StatusBadRequest : Z := 400.
Definition StatusInternalServerError : Z := 500.

(** What the handlers read of [*http.Request]: the body, the request
    context, and the route parameters that chi keeps in that context
    (keys and values in the order the router matched them). *)
Record Request (Ctx : Type) : Type := {
  Body : string;
  Context : Ctx;
  RouteParams : list (string * string)
}.

End http.

(* ------------------------------------------------------------------ *)
(** ** Package [chi] *)

Module chi.

(** [chi.URLParam(r, key)]: the value of the last route parameter named
    [key], and the empty string when there is none. *)
Definition URLParam {Ctx : Type} (r : http.Request Ctx) (key : string) : string :=
  match find (fun kv => String.eqb (fst kv) key) (rev (http.RouteParams r)) with
  | Some kv => snd kv
  | None => ""
  end.

End chi.

(* ------------------------------------------------------------------ *)
(** ** Package [zap]: the sugared logger *)

Module zap.

(** Strongly typed fields built by [zap.Error], [zap.Int], [zap.String]. *)
Inductive Field : Type :=
| Error (err : error)
| Int (key : string) (val : Z)
| String (key : string) (val : string).

(** One element of the variadic [keysAndValues ...interface{}] of
    [Infow]: a field, or a loose key or value. *)
Inductive Arg : Type :=
| F (f : Field)
| Str (s : string)
| Num (n : Z).

(** [*zap.SugaredLogger], as far as the handler uses it: [Infow] acts on
    a log sink of type [L]. *)
Record SugaredLogger (L : Type) : Type := {
  Infow : string -> list Arg -> L -> L
}.

End zap.

(* ------------------------------------------------------------------ *)
(** ** Package [models] *)

Module models.

(** The declarations of package [models] are outside this fragment; the
    handler reads [group.ID], [group.Name] and [req.Name] and nothing
    else, so the types are taken as parameters with these selectors. *)
Class Models : Type := {
  Group : Type;
  GroupMember : Type;
  CreateGroupRequest : Type;
  UpdateGroupRequest : Type;
  ID : Group -> string;
  Name : Group -> string;
  ReqName : CreateGroupRequest -> string
}.

End models.

(* ------------------------------------------------------------------ *)
(** ** Package [encoding/json] *)

Module json.

(** [json.NewDecoder(body).Decode(&v)] for a target of type [T]: [v]
    starts as the zero value of [T]; the call returns the value of [v]
    afterwards and the error, nil on success.  What is accepted depends
    on the declaration of [T], hence a class indexed by [T]. *)
Class Decodable (T : Type) : Type := {
  zero : T;
  Decode : string -> T -> T * option error
}.

(** *** The JSON grammar

    A JSON text as the scanner of [encoding/json] reads it (RFC 8259).  A
    number keeps its literal.  A string is unquoted the way the decoder
    does it: escapes are replaced, [\u] escapes are encoded as UTF-8, and
    bytes that are not well-formed UTF-8 are replaced by U+FFFD. *)
Inductive Value : Type :=
| JNull
| JBool (b : bool)
| JNumber (literal : string)
| JString (s : string)
| JArray (elements : list Value)
| JObject (members : list (string * Value)).

(** The double quote. *)
Definition dquote : ascii := "034"%char.

Definition isSpace (c : ascii) : bool :=
  (c =? " ")%char || (c =? "009")%char || (c =? "010")%char || (c =? "013")%char.

Fixpoint skipSpace (s : string) : string :=
  match s with
  | String c rest => if isSpace c then skipSpace rest else s
  | EmptyString => s
  end.

Definition isDigit (c : ascii) : bool :=
  (48 <=? nat_of_ascii c)%nat && (nat_of_ascii c <=? 57)%nat.

(** The digits [s] starts with, and the rest. *)
Fixpoint digits (s : string) : string * string :=
  match s with
  | String c rest =>
      if isDigit c then let '(ds, rest') := digits rest in (String c ds, rest')
      else (EmptyString, s)
  | EmptyString => (EmptyString, s)
  end.

Definition hexDigit (c : ascii) : option N :=
  let n := N_of_ascii c in
  if (48 <=? n)%N && (n <=? 57)%N then Some (n - 48)%N
  else if (97 <=? n)%N && (n <=? 102)%N then Some (n - 87)%N
  else if (65 <=? n)%N && (n <=? 70)%N then Some (n - 55)%N
  else None.

(** [getu4]: the code unit of four hexadecimal digits. *)
Definition getu4 (a b c d : ascii) : option N :=
  match hexDigit a, hexDigit b, hexDigit c, hexDigit d with
  | Some x, Some y, Some z, Some t => Some (((x * 16 + y) * 16 + z) * 16 + t)%N
  | _, _, _, _ => None
  end.

Definition byte (n : N) : ascii := ascii_of_N n.

(** [utf8.EncodeRune]. *)
Definition EncodeRune (r : N) : string :=
  if (r <? 128)%N then String (byte r) ""
  else if (r <? 2048)%N then
    String (byte (192 + r / 64)) (String (byte (128 + r mod 64)) "")
  else if (r <? 65536)%N then
    String (byte (224 + r / 4096))
      (String (byte (128 + (r / 64) mod 64)) (String (byte (128 + r mod 64)) ""))
  else
    String (byte (240 + r / 262144))
      (String (byte (128 + (r / 4096) mod 64))
         (String (byte (128 + (r / 64) mod 64)) (String (byte (128 + r mod 64)) ""))).

Definition ReplacementChar : N := 65533.

Definition isSurrogate (r : N) : bool := (55296 <=? r)%N && (r <? 57344)%N.

(** [utf16.DecodeRune]: the code point of a surrogate pair, and the
    replacement character when the two units are not a pair. *)
Definition DecodeRune (r1 r2 : N) : N :=
  if (55296 <=? r1)%N && (r1 <? 56320)%N && (56320 <=? r2)%N && (r2 <? 57344)%N
  then ((r1 - 55296) * 1024 + (r2 - 56320) + 65536)%N
  else ReplacementChar.

(** The byte of [s] at [i], if there is one. *)
Definition byteAt (s : string) (i : nat) : option N :=
  option_map N_of_ascii (String.get i s).

Definition within (lo hi : N) (b : option N) : bool :=
  match b with
  | Some n => (lo <=? n)%N && (n <=? hi)%N
  | None => false
  end.

(** The length of the well-formed UTF-8 sequence that the byte [c], not
    ASCII, starts when [rest] follows it; [None] when there is none, which
    is when [utf8.DecodeRune] gives the error rune of width one. *)
Definition runeLen (c : ascii) (rest : string) : option nat :=
  let b0 := N_of_ascii c in
  let b1 := byteAt rest 0 in
  let b2 := byteAt rest 1 in
  let b3 := byteAt rest 2 in
  let cont := within 128 191 in
  if (194 <=? b0)%N && (b0 <=? 223)%N then
    if cont b1 then Some 2%nat else None
  else if (b0 =? 224)%N then
    if within 160 191 b1 && cont b2 then Some 3%nat else None
  else if (b0 =? 237)%N then
    if within 128 159 b1 && cont b2 then Some 3%nat else None
  else if (225 <=? b0)%N && (b0 <=? 239)%N then
    if cont b1 && cont b2 then Some 3%nat else None
  else if (b0 =? 240)%N then
    if within 144 191 b1 && cont b2 && cont b3 then Some 4%nat else None
  else if (241 <=? b0)%N && (b0 <=? 243)%N then
    if cont b1 && cont b2 && cont b3 then Some 4%nat else None
  else if (b0 =? 244)%N then
    if within 128 143 b1 && cont b2 && cont b3 then Some 4%nat else None
  else None.

(** *** Syntax errors *)

Definition hexChar (n : N) : ascii :=
  if (n <? 10)%N then byte (48 + n) else byte (87 + n).

Definition hex2 (n : N) : string :=
  String (hexChar (n / 16)) (String (hexChar (n mod 16)) "").

(** [strconv.IsPrint] on a rune below 256. *)
Definition IsPrint (n : N) : bool :=
  ((32 <=? n)%N && (n <=? 126)%N)
  || ((161 <=? n)%N && (n <=? 255)%N && negb (n =? 173)%N).

(** [quoteChar]: the byte [c] as the message of a syntax error shows it,
    between single quotes. *)
Definition quoteChar (c : ascii) : string :=
  let n := N_of_ascii c in
  if (n =? 39)%N then "'\''"
  else if (n =? 34)%N then String "'" (String dquote "'")
  else
    "'" ++
    (if (n =? 92)%N then "\\"
     else if IsPrint n then EncodeRune n
     else if (n =? 7)%N then "\a"
     else if (n =? 8)%N then "\b"
     else if (n =? 12)%N then "\f"
     else if (n =? 10)%N then "\n"
     else if (n =? 13)%N then "\r"
     else if (n =? 9)%N then "\t"
     else if (n =? 11)%N then "\v"
     else if (n <? 32)%N || (n =? 127)%N then "\x" ++ hex2 n
     else "\u00" ++ hex2 n)
    ++ "'".

(** What the scanner makes of a text: the value it starts with and what
    follows it; or the text ends before the value does; or a byte is not
    allowed where it stands, which is a [*json.SyntaxError] with the
    message given. *)
Inductive Scan (A : Type) : Type :=
| Found (a : A) (rest : string)
| Truncated
| Invalid (message : string).

Arguments Truncated {A}.
Arguments Invalid {A} message.

Definition invalidCharacter {A : Type} (c : ascii) (context : string) : Scan A :=
  Invalid ("invalid character " ++ quoteChar c ++ " " ++ context).

(** *** The scanner *)

(** The rest [todo] of the literal [name], of which the first byte has
    been read. *)
Fixpoint scanLiteral (name todo s : string) : Scan unit :=
  match todo with
  | EmptyString => Found tt s
  | String a todo' =>
      match s with
      | EmptyString => Truncated
      | String c s' =>
          if (c =? a)%char then scanLiteral name todo' s'
          else invalidCharacter c
                 ("in literal " ++ name ++ " (expecting '" ++ String a "')")
      end
  end.

(** The integer part of a number: an optional minus sign, then a zero or
    a digit from 1 to 9 and more digits.  [s] starts with a minus sign or
    a digit. *)
Definition scanInteger (s : string) : Scan string :=
  let '(sign, s1) :=
    match s with
    | String "-" rest => ("-", rest)
    | _ => ("", s)
    end in
  match s1 with
  | EmptyString => Truncated
  | String c rest =>
      if (c =? "0")%char then Found (sign ++ "0") rest
      else if isDigit c then let '(ds, rest') := digits s1 in Found (sign ++ ds) rest'
      else invalidCharacter c "in numeric literal"
  end.

(** The fraction of a number, if it has one: a point and one or more
    digits. *)
Definition scanFraction (s : string) : Scan string :=
  match s with
  | String "." s1 =>
      match s1 with
      | EmptyString => Truncated
      | String c _ =>
          if isDigit c then let '(ds, rest) := digits s1 in Found (String "." ds) rest
          else invalidCharacter c "after decimal point in numeric literal"
      end
  | _ => Found "" s
  end.

(** The exponent of a number, if it has one: the mark, an optional sign
    and one or more digits. *)
Definition scanExponent (s : string) : Scan string :=
  match s with
  | String e s1 =>
      if (e =? "e")%char || (e =? "E")%char then
        let '(sign, s2) :=
          match s1 with
          | String "+" rest => ("+", rest)
          | String "-" rest => ("-", rest)
          | _ => ("", s1)
          end in
        match s2 with
        | EmptyString => Truncated
        | String c _ =>
            if isDigit c then
              let '(ds, rest) := digits s2 in Found (String e (sign ++ ds)) rest
            else invalidCharacter c "in exponent of numeric literal"
        end
      else Found "" s
  | EmptyString => Found "" s
  end.

Definition scanNumber (s : string) : Scan string :=
  match scanInteger s with
  | Found i s1 =>
      match scanFraction s1 with
      | Found f s2 =>
          match scanExponent s2 with
          | Found x s3 => Found (i ++ f ++ x) s3
          | Truncated => Truncated
          | Invalid m => Invalid m
          end
      | Truncated => Truncated
      | Invalid m => Invalid m
      end
  | Truncated => Truncated
  | Invalid m => Invalid m
  end.

Definition simpleEscape (c : ascii) : option ascii :=
  if (c =? dquote)%char then Some dquote
  else if (c =? "\")%char then Some "\"%char
  else if (c =? "/")%char then Some "/"%char
  else if (c =? "b")%char then Some "008"%char
  else if (c =? "f")%char then Some "012"%char
  else if (c =? "n")%char then Some "010"%char
  else if (c =? "r")%char then Some "013"%char
  else if (c =? "t")%char then Some "009"%char
  else None.

Definition prepend (pre : string) (res : Scan string) : Scan string :=
  match res with
  | Found str rest => Found (pre ++ str) rest
  | Truncated => Truncated
  | Invalid m => Invalid m
  end.

(** What is wrong with the [n] bytes after [\u] when they are not [n]
    hexadecimal digits: the first that is none, or the end of the
    text. *)
Fixpoint hexError (n : nat) (s : string) : Scan string :=
  match n with
  | O => Truncated
  | Datatypes.S n' =>
      match s with
      | EmptyString => Truncated
      | String c s' =>
          match hexDigit c with
          | Some _ => hexError n' s'
          | None => invalidCharacter c "in \u hexadecimal character escape"
          end
      end
  end.

(** The string literal whose opening quote has been read: its content and
    what follows the closing quote.  [pending] counts the bytes still to
    copy of a UTF-8 sequence found well-formed. *)
Fixpoint scanString (pending : nat) (s : string) : Scan string :=
  match s with
  | EmptyString => Truncated
  | String c rest =>
      match pending with
      | Datatypes.S pending' => prepend (String c "") (scanString pending' rest)
      | O =>
          if (c =? dquote)%char then Found "" rest
          else if (c =? "\")%char then
            match rest with
            | EmptyString => Truncated
            | String "u" tail =>
                match tail with
                | String a (String b (String c' (String d rest1))) =>
                    match getu4 a b c' d with
                    | None => hexError 4 tail
                    | Some rr =>
                        if isSurrogate rr then
                          match rest1 with
                          | String "\" (String "u" (String a2 (String b2 (String c2 (String d2 rest2))))) =>
                              match getu4 a2 b2 c2 d2 with
                              | Some rr1 =>
                                  if (DecodeRune rr rr1 =? ReplacementChar)%N
                                  then prepend (EncodeRune ReplacementChar) (scanString 0 rest1)
                                  else prepend (EncodeRune (DecodeRune rr rr1)) (scanString 0 rest2)
                              | None => prepend (EncodeRune ReplacementChar) (scanString 0 rest1)
                              end
                          | _ => prepend (EncodeRune ReplacementChar) (scanString 0 rest1)
                          end
                        else prepend (EncodeRune rr) (scanString 0 rest1)
                    end
                | _ => hexError 4 tail
                end
            | String e rest1 =>
                match simpleEscape e with
                | Some ch => prepend (String ch "") (scanString 0 rest1)
                | None => invalidCharacter e "in string escape code"
                end
            end
          else if (nat_of_ascii c <? 32)%nat then invalidCharacter c "in string literal"
          else if (nat_of_ascii c <? 128)%nat then prepend (String c "") (scanString 0 rest)
          else
            match runeLen c rest with
            | Some len => prepend (String c "") (scanString (len - 1) rest)
            | None => prepend (EncodeRune ReplacementChar) (scanString 0 rest)
            end
      end
  end.

(** [maxNestingDepth] of the scanner. *)
Definition maxNestingDepth : N := 10000.

(** The value [s] starts with, after white space, and the rest;
    [depth] is the number of arrays and objects that are open.  [fuel]
    bounds the recursion: every call reads at least one byte before the
    next, so twice the length of the text is enough. *)
Fixpoint scanValue (fuel : nat) (depth : N) (s : string) {struct fuel}
    : Scan Value :=
  match fuel with
  | O => Truncated
  | Datatypes.S fuel' =>
      match skipSpace s with
      | EmptyString => Truncated
      | String c rest =>
          if (c =? "{")%char then
            if (depth <? maxNestingDepth)%N then
              match skipSpace rest with
              | String "}" rest' => Found (JObject []) rest'
              | _ =>
                  match scanMembers fuel' (depth + 1)%N rest with
                  | Found ms rest' => Found (JObject ms) rest'
                  | Truncated => Truncated
                  | Invalid m => Invalid m
                  end
              end
            else Invalid "exceeded max depth"
          else if (c =? "[")%char then
            if (depth <? maxNestingDepth)%N then
              match skipSpace rest with
              | String "]" rest' => Found (JArray []) rest'
              | _ =>
                  match scanElements fuel' (depth + 1)%N rest with
                  | Found vs rest' => Found (JArray vs) rest'
                  | Truncated => Truncated
                  | Invalid m => Invalid m
                  end
              end
            else Invalid "exceeded max depth"
          else if (c =? dquote)%char then
            match scanString 0 rest with
            | Found str rest' => Found (JString str) rest'
            | Truncated => Truncated
            | Invalid m => Invalid m
            end
          else if (c =? "-")%char || isDigit c then
            match scanNumber (String c rest) with
            | Found lit rest' => Found (JNumber lit) rest'
            | Truncated => Truncated
            | Invalid m => Invalid m
            end
          else if (c =? "t")%char then
            match scanLiteral "true" "rue" rest with
            | Found _ rest' => Found (JBool true) rest'
            | Truncated => Truncated
            | Invalid m => Invalid m
            end
          else if (c =? "f")%char then
            match scanLiteral "false" "alse" rest with
            | Found _ rest' => Found (JBool false) rest'
            | Truncated => Truncated
            | Invalid m => Invalid m
            end
          else if (c =? "n")%char then
            match scanLiteral "null" "ull" rest with
            | Found _ rest' => Found JNull rest'
            | Truncated => Truncated
            | Invalid m => Invalid m
            end
          else invalidCharacter c "looking for beginning of value"
      end
  end

(** The elements of an array from the next value on, up to the bracket
    that closes it. *)
with scanElements (fuel : nat) (depth : N) (s : string) {struct fuel}
    : Scan (list Value) :=
  match fuel with
  | O => Truncated
  | Datatypes.S fuel' =>
      match scanValue fuel' depth s with
      | Truncated => Truncated
      | Invalid m => Invalid m
      | Found v rest =>
          match skipSpace rest with
          | EmptyString => Truncated
          | String c rest' =>
              if (c =? ",")%char then
                match scanElements fuel' depth rest' with
                | Found vs rest'' => Found (v :: vs) rest''
                | Truncated => Truncated
                | Invalid m => Invalid m
                end
              else if (c =? "]")%char then Found [v] rest'
              else invalidCharacter c "after array element"
          end
      end
  end

(** The members of an object from the next key on, up to the brace that
    closes it. *)
with scanMembers (fuel : nat) (depth : N) (s : string) {struct fuel}
    : Scan (list (string * Value)) :=
  match fuel with
  | O => Truncated
  | Datatypes.S fuel' =>
      match skipSpace s with
      | EmptyString => Truncated
      | String c rest =>
          if (c =? dquote)%char then
            match scanString 0 rest with
            | Truncated => Truncated
            | Invalid m => Invalid m
            | Found key rest1 =>
                match skipSpace rest1 with
                | EmptyString => Truncated
                | String c1 rest2 =>
                    if (c1 =? ":")%char then
                      match scanValue fuel' depth rest2 with
                      | Truncated => Truncated
                      | Invalid m => Invalid m
                      | Found v rest3 =>
                          match skipSpace rest3 with
                          | EmptyString => Truncated
                          | String c2 rest4 =>
                              if (c2 =? ",")%char then
                                match scanMembers fuel' depth rest4 with
                                | Found ms rest5 => Found ((key, v) :: ms) rest5
                                | Truncated => Truncated
                                | Invalid m => Invalid m
                                end
                              else if (c2 =? "}")%char then Found [(key, v)] rest4
                              else invalidCharacter c2 "after object key:value pair"
                          end
                      end
                    else invalidCharacter c1 "after object key"
                end
            end
          else invalidCharacter c "looking for beginning of object key string"
      end
  end.

(** The first JSON value of a stream, which is what one [Decode] reads;
    what follows it is left in the stream. *)
Definition readValue (body : string) : Scan Value :=
  scanValue (2 * String.length body + 2) 0 body.

(** [json.Valid]: the text is one JSON value, white space around it. *)
Definition Valid (text : string) : bool :=
  match readValue text with
  | Found _ rest => String.eqb (skipSpace rest) ""
  | _ => false
  end.

(** *** Decoding into a struct *)

(** [io.EOF] and [io.ErrUnexpectedEOF]. *)
Definition EOF : error := errors_New "EOF".
Definition ErrUnexpectedEOF : error := errors_New "unexpected EOF".

Definition kind (v : Value) : string :=
  match v with
  | JNull => "null"
  | JBool _ => "bool"
  | JNumber _ => "number"
  | JString _ => "string"
  | JArray _ => "array"
  | JObject _ => "object"
  end.

(** [*json.UnmarshalTypeError]: the JSON value does not fit the Go
    target. *)
Definition UnmarshalTypeError (v : Value) (target : string) : error :=
  errors_New ("json: cannot unmarshal " ++ kind v ++ " into Go " ++ target).

(** [Decode] into a struct of type [models.typeName].  The stream is read
    up to the end of its first value: a stream with nothing but white
    space is [io.EOF], one that ends inside the value is
    [io.ErrUnexpectedEOF], a byte out of place is the syntax error.  An
    object is stored member by member; [null] changes nothing; any other
    value is a type error.  How one member is stored depends on the
    fields the struct declares and is the parameter [store], which
    returns the struct after the member and the type error the member
    raises, if any; the first error is the one returned, after the whole
    object has been read. *)
Definition decodeStruct (T : Type) (typeName : string)
    (store : string -> Value -> T -> T * option error)
    (body : string) (v : T) : T * option error :=
  match readValue body with
  | Truncated =>
      (v, Some (if String.eqb (skipSpace body) "" then EOF else ErrUnexpectedEOF))
  | Invalid message => (v, Some (errors_New message))
  | Found JNull _ => (v, None)
  | Found (JObject members) _ =>
      fold_left
        (fun (acc : T * option error) (m : string * Value) =>
           let stored := store (fst m) (snd m) (fst acc) in
           (fst stored,
            match snd acc with
            | Some e => Some e
            | None => snd stored
            end))
        members (v, None)
  | Found other _ =>
      (v, Some (UnmarshalTypeError other ("value of type models." ++ typeName)))
  end.

End json.

(* ------------------------------------------------------------------ *)
(** ** Package [response]: the envelopes *)

Module response.

Section Envelopes.

Context `{MT : models.Models}.

(** The [data any] and [details any] arguments, by what the handler
    passes: nil, a group, a list of groups or a list of members. *)
Inductive any : Type :=
| null
| group (g : models.Group)
| groups (gs : list models.Group)
| members (ms : list models.GroupMember).

(** Modelled from the spec: package [pkg/response] is not part of this
    fragment.  The success envelope is [{ status, message, data }] and
    the error envelope is [{ status, code, message, details }]; the
    [status] field tells the two apart and is the constructor here. *)
Inductive Envelope : Type :=
| Success (message : string) (data : any)
| Failure (code : string) (message : string) (details : any).

(** What reaches the client: the HTTP status and the envelope. *)
Record Response : Type := {
  StatusCode : Z;
  Payload : Envelope
}.

(** The [http.ResponseWriter] of one request: the responses written to
    it so far, oldest first. *)
Definition ResponseWriter : Type := list Response.

(** Modelled from the spec: [response.RespondSuccess(w, status, message,
    data)] writes [status] and the success envelope to [w]. *)
Definition RespondSuccess (w : ResponseWriter) (status : Z)
    (message : string) (data : any) : ResponseWriter :=
  (w ++ [ {| StatusCode := status; Payload := Success message data |} ])%list.

(** Modelled from the spec: [response.RespondError(w, status, code,
    message, details)] writes [status] and the error envelope to [w]. *)
Definition RespondError (w : ResponseWriter) (status : Z)
    (code message : string) (details : any) : ResponseWriter :=
  (w ++ [ {| StatusCode := status; Payload := Failure code message details |} ])%list.

End Envelopes.

End response.

(* ------------------------------------------------------------------ *)
(** ** Package [group_service]: the collaborator *)

Module group_service.

Section Service.

Context `{MT : models.Models}.
Variables Ctx S : Type.

(** The eight methods the handler calls on [*group_service.Service].
    Each takes the request context and acts on the state [S] behind the
    service; a result comes with an error, nil on success, the way the
    Go methods return [(value, error)].  The declarations are outside
    this fragment: a group that comes with a nil error is taken to be a
    group, not a nil pointer. *)
Record Service : Type := {
  CreateGroup : Ctx -> models.CreateGroupRequest -> S -> (models.Group * option error) * S;
  GetGroups : Ctx -> S -> (list models.Group * option error) * S;
  GetGroup : Ctx -> string -> S -> (models.Group * option error) * S;
  UpdateGroup : Ctx -> string -> models.UpdateGroupRequest -> S -> (models.Group * option error) * S;
  DeleteGroup : Ctx -> string -> S -> option error * S;
  GetGroupMembers : Ctx -> string -> S -> (list models.GroupMember * option error) * S;
  AddUserToGroup : Ctx -> string -> string -> S -> option error * S;
  RemoveUserFromGroup : Ctx -> string -> string -> S -> option error * S
}.

(** A call as the service sees it: the method and its arguments. *)
Inductive Call : Type :=
| CallCreateGroup (ctx : Ctx) (req : models.CreateGroupRequest)
| CallGetGroups (ctx : Ctx)
| CallGetGroup (ctx : Ctx) (groupID : string)
| CallUpdateGroup (ctx : Ctx) (groupID : string) (req : models.UpdateGroupRequest)
| CallDeleteGroup (ctx : Ctx) (groupID : string)
| CallGetGroupMembers (ctx : Ctx) (groupID : string)
| CallAddUserToGroup (ctx : Ctx) (groupID userID : string)
| CallRemoveUserFromGroup (ctx : Ctx) (groupID userID : string).

End Service.

End group_service.

(* ------------------------------------------------------------------ *)
(** ** Package [group_handlers]: the handler *)

Module group_handlers.

Section Handler.

Context `{MT : models.Models}.
Context `{!json.Decodable models.CreateGroupRequest}.
Context `{!json.Decodable models.UpdateGroupRequest}.
Variables Ctx S L : Type.

(** [type Handler struct { log; groupsSvc }]. *)
Record Handler : Type := {
  log : zap.SugaredLogger L;
  groupsSvc : group_service.Service Ctx S
}.

(** [func New(log, svc) *Handler]. *)
Definition New (log : zap.SugaredLogger L)
    (svc : group_service.Service Ctx S) : Handler :=
  {| log := log; groupsSvc := svc |}.

(** What an invocation does to its collaborators besides logging and
    answering, in order: a decoding of the request body with its error,
    and a service call with what it returned. *)
Inductive Event : Type :=
| Decoded (body : string) (err : option error)
| Called (c : group_service.Call Ctx) (ret : response.any) (err : option error).

(** Everything a method of [*Handler] can read or change: the receiver
    [*h], the sink of [h.log], the state behind [h.groupsSvc], the
    response writer [w], and the events so far. *)
Record World : Type := {
  this : Handler;
  sink : L;
  backend : S;
  w : response.ResponseWriter;
  events : list Event
}.

Definition M : Type -> Type := state World.

(** *** The calls a method makes *)

(** [h.log.Infow(msg, keysAndValues...)]. *)
Definition Infow (msg : string) (keysAndValues : list zap.Arg) : M unit :=
  σ <- get ;;
  put {| this := this σ;
         sink := zap.Infow (log (this σ)) msg keysAndValues (sink σ);
         backend := backend σ; w := w σ; events := events σ |}.

Definition emit (e : Event) : M unit :=
  σ <- get ;;
  put {| this := this σ; sink := sink σ; backend := backend σ; w := w σ;
         events := (events σ ++ [e])%list |}.

(** [var req T; err := json.NewDecoder(r.Body).Decode(&req)]. *)
Definition decodeBody (T : Type) `{!json.Decodable T}
    (r : http.Request Ctx) : M (T * option error) :=
  let res := json.Decode (http.Body r) json.zero in
  emit (Decoded (http.Body r) (snd res)) ;;
  ret res.

(** [v, err := h.groupsSvc.method(args)] for a method with a result:
    the method of the service the receiver points to runs on the
    state behind it. *)
Definition invoke (A : Type) (c : group_service.Call Ctx)
    (method : group_service.Service Ctx S -> S -> (A * option error) * S)
    (wrap : A -> response.any) : M (A * option error) :=
  σ <- get ;;
  let out := method (groupsSvc (this σ)) (backend σ) in
  let res := fst out in
  put {| this := this σ; sink := sink σ; backend := snd out; w := w σ;
         events := (events σ ++ [Called c (wrap (fst res)) (snd res)])%list |} ;;
  ret res.

(** [err := h.groupsSvc.method(args)] for a method that returns only
    an error. *)
Definition invoke_ (c : group_service.Call Ctx)
    (method : group_service.Service Ctx S -> S -> option error * S)
    : M (option error) :=
  σ <- get ;;
  let out := method (groupsSvc (this σ)) (backend σ) in
  let err := fst out in
  put {| this := this σ; sink := sink σ; backend := snd out; w := w σ;
         events := (events σ ++ [Called c response.null err])%list |} ;;
  ret err.

(** [response.RespondSuccess(w, status, message, data)]. *)
Definition RespondSuccess (status : Z) (message : string)
    (data : response.any) : M unit :=
  σ <- get ;;
  put {| this := this σ; sink := sink σ; backend := backend σ;
         w := response.RespondSuccess (w σ) status message data;
         events := events σ |}.

(** [func (h *Handler) respondWithError(w, message, statusCode)]. *)
Definition respondWithError (message : string) (statusCode : Z) : M unit :=
  σ <- get ;;
  put {| this := this σ; sink := sink σ; backend := backend σ;
         w := response.RespondError (w σ) statusCode "API_ERROR" message response.null;
         events := events σ |}.

(** *** The eight methods

    An early [return] of the Go code is the end of a branch here. *)

Definition CreateGroup (r : http.Request Ctx) : M unit :=
  Infow "Create group request received" [] ;;
  '(req, err) <- decodeBody (T := models.CreateGroupRequest) r ;;
  match err with
  | Some err =>
      Infow "Failed to decode create group request" [zap.F (zap.Error err)] ;;
      respondWithError "Invalid request body" http.StatusBadRequest
  | None =>
      '(group, err) <- invoke (group_service.CallCreateGroup (http.Context r) req)
                         (fun svc => group_service.CreateGroup svc (http.Context r) req)
                         response.group ;;
      match err with
      | Some err =>
          Infow "Failed to create group"
            [zap.F (zap.Error err); zap.Str "name"; zap.Str (models.ReqName req)] ;;
          respondWithError "Failed to create group" http.StatusInternalServerError
      | None =>
          Infow "Group created successfully"
            [zap.Str "groupId"; zap.Str (models.ID group);
             zap.Str "name"; zap.Str (models.Name group)] ;;
          RespondSuccess http.StatusCreated
            (Sprintf_created (models.Name group)) (response.group group)
      end
  end.

Definition GetGroups (r : http.Request Ctx) : M unit :=
  Infow "Get groups request received" [] ;;
  '(groups, err) <- invoke (group_service.CallGetGroups (http.Context r))
                      (fun svc => group_service.GetGroups svc (http.Context r))
                      response.groups ;;
  match err with
  | Some err =>
      Infow "Failed to get groups" [zap.F (zap.Error err)] ;;
      respondWithError "Failed to retrieve groups" http.StatusInternalServerError
  | None =>
      Infow "Groups retrieved successfully"
        [zap.F (zap.Int "count" (Z.of_nat (length groups)))] ;;
      RespondSuccess http.StatusOK "Success" (response.groups groups)
  end.

Definition GetGroup (r : http.Request Ctx) : M unit :=
  let groupID := chi.URLParam r "groupID" in
  if String.eqb groupID "" then
    respondWithError "Group ID is required" http.StatusBadRequest
  else
    Infow "Get group request received" [zap.Str "groupId"; zap.Str groupID] ;;
    '(group, err) <- invoke (group_service.CallGetGroup (http.Context r) groupID)
                       (fun svc => group_service.GetGroup svc (http.Context r) groupID)
                       response.group ;;
    match err with
    | Some err =>
        Infow "Failed to get group"
          [zap.F (zap.Error err); zap.Str "groupId"; zap.Str groupID] ;;
        respondWithError "Failed to retrieve group" http.StatusInternalServerError
    | None =>
        Infow "Group retrieved successfully" [zap.F (zap.String "groupId" groupID)] ;;
        RespondSuccess http.StatusOK "Success" (response.group group)
    end.

Definition UpdateGroup (r : http.Request Ctx) : M unit :=
  let groupID := chi.URLParam r "groupID" in
  if String.eqb groupID "" then
    respondWithError "Group ID is required" http.StatusBadRequest
  else
    Infow "Update group request received" [zap.Str "groupId"; zap.Str groupID] ;;
    '(req, err) <- decodeBody (T := models.UpdateGroupRequest) r ;;
    match err with
    | Some err =>
        Infow "Failed to decode update group request" [zap.F (zap.Error err)] ;;
        respondWithError "Invalid request body" http.StatusBadRequest
    | None =>
        '(group, err) <- invoke (group_service.CallUpdateGroup (http.Context r) groupID req)
                           (fun svc => group_service.UpdateGroup svc (http.Context r) groupID req)
                           response.group ;;
        match err with
        | Some err =>
            Infow "Failed to update group"
              [zap.F (zap.Error err); zap.Str "groupId"; zap.Str groupID] ;;
            respondWithError "Failed to update group" http.StatusInternalServerError
        | None =>
            Infow "Group updated successfully" [zap.Str "groupId"; zap.Str groupID] ;;
            RespondSuccess http.StatusOK "Group updated successfully" (response.group group)
        end
    end.

Definition DeleteGroup (r : http.Request Ctx) : M unit :=
  let groupID := chi.URLParam r "groupID" in
  if String.eqb groupID "" then
    respondWithError "Group ID is required" http.StatusBadRequest
  else
    Infow "Delete group request received" [zap.Str "groupId"; zap.Str groupID] ;;
    err <- invoke_ (group_service.CallDeleteGroup (http.Context r) groupID)
             (fun svc => group_service.DeleteGroup svc (http.Context r) groupID) ;;
    match err with
    | Some err =>
        Infow "Failed to delete group"
          [zap.F (zap.Error err); zap.Str "groupId"; zap.Str groupID] ;;
        respondWithError "Failed to delete group" http.StatusInternalServerError
    | None =>
        Infow "Group deleted successfully" [zap.Str "groupId"; zap.Str groupID] ;;
        RespondSuccess http.StatusOK "Group deleted successfully" response.null
    end.

Definition GetGroupMembers (r : http.Request Ctx) : M unit :=
  let groupID := chi.URLParam r "groupID" in
  if String.eqb groupID "" then
    respondWithError "Group ID is required" http.StatusBadRequest
  else
    Infow "Get group members request received" [zap.Str "groupId"; zap.Str groupID] ;;
    '(members, err) <- invoke (group_service.CallGetGroupMembers (http.Context r) groupID)
                         (fun svc => group_service.GetGroupMembers svc (http.Context r) groupID)
                         response.members ;;
    match err with
    | Some err =>
        Infow "Failed to get group members"
          [zap.F (zap.Error err); zap.Str "groupId"; zap.Str groupID] ;;
        respondWithError "Failed to retrieve group members" http.StatusInternalServerError
    | None =>
        Infow "Group members retrieved successfully"
          [zap.Str "groupId"; zap.Str groupID;
           zap.Str "memberCount"; zap.Num (Z.of_nat (length members))] ;;
        RespondSuccess http.StatusOK "Success" (response.members members)
    end.

Definition AddUserToGroup (r : http.Request Ctx) : M unit :=
  let groupID := chi.URLParam r "groupID" in
  let userID := chi.URLParam r "userID" in
  if String.eqb groupID "" || String.eqb userID "" then
    respondWithError "Both Group ID and User ID are required" http.StatusBadRequest
  else
    Infow "Add user to group request received"
      [zap.Str "groupId"; zap.Str groupID; zap.Str "userId"; zap.Str userID] ;;
    err <- invoke_ (group_service.CallAddUserToGroup (http.Context r) groupID userID)
             (fun svc => group_service.AddUserToGroup svc (http.Context r) groupID userID) ;;
    match err with
    | Some err =>
        Infow "Failed to add user to group"
          [zap.F (zap.Error err); zap.Str "groupId"; zap.Str groupID;
           zap.Str "userId"; zap.Str userID] ;;
        respondWithError "Failed to add user to group" http.StatusInternalServerError
    | None =>
        Infow "User added to group successfully"
          [zap.Str "groupId"; zap.Str groupID; zap.Str "userId"; zap.Str userID] ;;
        RespondSuccess http.StatusOK "User added to group successfully" response.null
    end.

Definition RemoveUserFromGroup (r : http.Request Ctx) : M unit :=
  let groupID := chi.URLParam r "groupID" in
  let userID := chi.URLParam r "userID" in
  if String.eqb groupID "" || String.eqb userID "" then
    respondWithError "Both Group ID and User ID are required" http.StatusBadRequest
  else
    Infow "Remove user from group request received"
      [zap.Str "groupId"; zap.Str groupID; zap.Str "userId"; zap.Str userID] ;;
    err <- invoke_ (group_service.CallRemoveUserFromGroup (http.Context r) groupID userID)
             (fun svc => group_service.RemoveUserFromGroup svc (http.Context r) groupID userID) ;;
    match err with
    | Some err =>
        Infow "Failed to remove user from group"
          [zap.F (zap.Error err); zap.Str "groupId"; zap.Str groupID;
           zap.Str "userId"; zap.Str userID] ;;
        respondWithError "Failed to remove user from group" http.StatusInternalServerError
    | None =>
        Infow "User removed from group successfully"
          [zap.Str "groupId"; zap.Str groupID; zap.Str "userId"; zap.Str userID] ;;
        RespondSuccess http.StatusOK "User removed from group successfully" response.null
    end.

(** *** Invocations *)

(** The eight operations the handler exposes. *)
Inductive Operation : Type :=
| OpCreateGroup | OpGetGroups | OpGetGroup | OpUpdateGroup
| OpDeleteGroup | OpGetGroupMembers | OpAddUserToGroup | OpRemoveUserFromGroup.

Definition method (op : Operation) : http.Request Ctx -> M unit :=
  match op with
  | OpCreateGroup => CreateGroup
  | OpGetGroups => GetGroups
  | OpGetGroup => GetGroup
  | OpUpdateGroup => UpdateGroup
  | OpDeleteGroup => DeleteGroup
  | OpGetGroupMembers => GetGroupMembers
  | OpAddUserToGroup => AddUserToGroup
  | OpRemoveUserFromGroup => RemoveUserFromGroup
  end.

(** The world in which the server invokes a method: the handler [h],
    whatever the log sink and the service state are by then, and a
    fresh response writer. *)
Definition enter (h : Handler) (l : L) (s : S) : World :=
  {| this := h; sink := l; backend := s; w := []; events := [] |}.

(** One invocation [h.op(w, r)], from entry to return. *)
Definition serve (h : Handler) (l : L) (s : S)
    (op : Operation) (r : http.Request Ctx) : World :=
  snd (runState (method op r) (enter h l s)).

(** The world in which the next invocation starts: the server gives
    every request a response writer of its own. *)
Definition next (σ : World) : World :=
  {| this := this σ; sink := sink σ; backend := backend σ; w := []; events := [] |}.

(** A run of the server with one handler: the invocations one after the
    other. *)
Fixpoint session (reqs : list (Operation * http.Request Ctx)) (σ : World) : World :=
  match reqs with
  | [] => σ
  | (op, r) :: rest => session rest (snd (runState (method op r) (next σ)))
  end.

(** The service calls among the events of an invocation. *)
Definition calls (evs : list Event) : list (group_service.Call Ctx) :=
  flat_map (fun e => match e with Called c _ _ => [c] | Decoded _ _ => [] end) evs.

(** The body decodings among the events of an invocation. *)
Definition decodings (evs : list Event) : list string :=
  flat_map (fun e => match e with Decoded b _ => [b] | Called _ _ _ => [] end) evs.

(** What the service [svc] returns for the call [c] in the state [s],
    its value as the handler would pass it on, and the state after. *)
Definition perform (svc : group_service.Service Ctx S)
    (c : group_service.Call Ctx) (s : S) : (response.any * option error) * S :=
  match c with
  | group_service.CallCreateGroup ctx req =>
      let '((g, err), s') := group_service.CreateGroup svc ctx req s in
      ((response.group g, err), s')
  | group_service.CallGetGroups ctx =>
      let '((gs, err), s') := group_service.GetGroups svc ctx s in
      ((response.groups gs, err), s')
  | group_service.CallGetGroup ctx groupID =>
      let '((g, err), s') := group_service.GetGroup svc ctx groupID s in
      ((response.group g, err), s')
  | group_service.CallUpdateGroup ctx groupID req =>
      let '((g, err), s') := group_service.UpdateGroup svc ctx groupID req s in
      ((response.group g, err), s')
  | group_service.CallDeleteGroup ctx groupID =>
      let '(err, s') := group_service.DeleteGroup svc ctx groupID s in
      ((response.null, err), s')
  | group_service.CallGetGroupMembers ctx groupID =>
      let '((ms, err), s') := group_service.GetGroupMembers svc ctx groupID s in
      ((response.members ms, err), s')
  | group_service.CallAddUserToGroup ctx groupID userID =>
      let '(err, s') := group_service.AddUserToGroup svc ctx groupID userID s in
      ((response.null, err), s')
  | group_service.CallRemoveUserFromGroup ctx groupID userID =>
      let '(err, s') := group_service.RemoveUserFromGroup svc ctx groupID userID s in
      ((response.null, err), s')
  end.

(** The message each method passes to [respondWithError] after a
    failed service call. *)
Definition failure_message (op : Operation) : string :=
  match op with
  | OpCreateGroup => "Failed to create group"
  | OpGetGroups => "Failed to retrieve groups"
  | OpGetGroup => "Failed to retrieve group"
  | OpUpdateGroup => "Failed to update group"
  | OpDeleteGroup => "Failed to delete group"
  | OpGetGroupMembers => "Failed to retrieve group members"
  | OpAddUserToGroup => "Failed to add user to group"
  | OpRemoveUserFromGroup => "Failed to remove user from group"
  end.

(** An error response with message [message]: the error envelope with
    code ["API_ERROR"] and no details. *)
Definition api_error (status : Z) (message : string) : response.Response :=
  {| response.StatusCode := status;
     response.Payload := response.Failure "API_ERROR" message response.null |}.

(** The guard each method starts with: a path parameter the method
    requires is the empty string.  [CreateGroup] and [GetGroups] have no
    such guard. *)
Definition missing_params (op : Operation) (r : http.Request Ctx) : bool :=
  match op with
  | OpCreateGroup | OpGetGroups => false
  | OpGetGroup | OpUpdateGroup | OpDeleteGroup | OpGetGroupMembers =>
      String.eqb (chi.URLParam r "groupID") ""
  | OpAddUserToGroup | OpRemoveUserFromGroup =>
      String.eqb (chi.URLParam r "groupID") "" || String.eqb (chi.URLParam r "userID") ""
  end.

(** Two requests agree on what the method of [op] reads of a request:
    the context, and of the route parameters and the body those the
    method asks for. *)
Definition same_inputs (op : Operation) (r1 r2 : http.Request Ctx) : Prop :=
  http.Context r1 = http.Context r2 /\
  match op with
  | OpGetGroups => True
  | OpCreateGroup => http.Body r1 = http.Body r2
  | OpGetGroup | OpDeleteGroup | OpGetGroupMembers =>
      chi.URLParam r1 "groupID" = chi.URLParam r2 "groupID"
  | OpUpdateGroup =>
      chi.URLParam r1 "groupID" = chi.URLParam r2 "groupID"
      /\ http.Body r1 = http.Body r2
  | OpAddUserToGroup | OpRemoveUserFromGroup =>
      chi.URLParam r1 "groupID" = chi.URLParam r2 "groupID"
      /\ chi.URLParam r1 "userID" = chi.URLParam r2 "userID"
  end.

(** The status codes the method of [op] passes to the response
    package. *)
Definition statuses (op : Operation) : list Z :=
  match op with
  | OpCreateGroup =>
      [http.StatusBadRequest; http.StatusInternalServerError; http.StatusCreated]
  | OpGetGroups => [http.StatusInternalServerError; http.StatusOK]
  | _ => [http.StatusBadRequest; http.StatusInternalServerError; http.StatusOK]
  end.

End Handler.

Arguments method {_ _ _ Ctx S L} op r.
Arguments session {_ _ _ Ctx S L} reqs σ.

End group_handlers.

(* ------------------------------------------------------------------ *)
(** ** An instance: the models of the spec, and test doubles *)

Module instance.

(** Modelled from the spec: package [models] is not part of this
    fragment.  A group is a record with an identifier and a name; a
    member stands for a user's membership; the create and update
    requests are payloads with a [Name] field at least, which the body
    gives under the key ["name"].  The structs here declare that field
    and no other, the least the spec allows. *)
Record Group : Type := { ID : string; Name : string }.
Record GroupMember : Type := { UserID : string }.
Record CreateGroupRequest : Type := { CreateName : string }.
Record UpdateGroupRequest : Type := { UpdateName : string }.

#[global] Instance Models : models.Models := {|
  models.Group := Group;
  models.GroupMember := GroupMember;
  models.CreateGroupRequest := CreateGroupRequest;
  models.UpdateGroupRequest := UpdateGroupRequest;
  models.ID := ID;
  models.Name := Name;
  models.ReqName := CreateName
|}.

(** *** Storing a member into a struct with the field [Name] *)

Definition lower (c : ascii) : ascii :=
  let n := nat_of_ascii c in
  if (65 <=? n)%nat && (n <=? 90)%nat then ascii_of_nat (n + 32) else c.

(** Equality up to the case of ASCII letters, by which [encoding/json]
    matches an object key with a field name. *)
Fixpoint EqualFold (a b : string) : bool :=
  match a, b with
  | EmptyString, EmptyString => true
  | String x a', String y b' => (lower x =? lower y)%char && EqualFold a' b'
  | _, _ => false
  end.

(** What the decoder does with the member [key] of an object for the
    structs above, whose one field is [Name string] under the key
    ["name"]: a member named so sets the field when it holds a string,
    changes nothing when it holds [null] and is a type error otherwise;
    any other member is skipped.  The runs below use bodies with no
    member but ["name"], whose decoding is the same whatever further
    fields a struct declares. *)
Definition storeName (T : Type) (typeName : string) (setName : string -> T -> T)
    (key : string) (value : json.Value) (v : T) : T * option error :=
  if EqualFold key "name" then
    match value with
    | json.JString s => (setName s v, None)
    | json.JNull => (v, None)
    | other =>
        (v, Some (json.UnmarshalTypeError other
                    ("struct field " ++ typeName ++ ".name of type string")))
    end
  else (v, None).

#[global] Instance DecodableCreate : json.Decodable (@models.CreateGroupRequest Models) := {|
  json.zero := {| CreateName := "" |};
  json.Decode :=
    json.decodeStruct "CreateGroupRequest"
      (storeName "CreateGroupRequest" (fun s _ => {| CreateName := s |}))
|}.

#[global] Instance DecodableUpdate : json.Decodable (@models.UpdateGroupRequest Models) := {|
  json.zero := {| UpdateName := "" |};
  json.Decode :=
    json.decodeStruct "UpdateGroupRequest"
      (storeName "UpdateGroupRequest" (fun s _ => {| UpdateName := s |}))
|}.

(** *** A service kept in memory *)

Record Entry : Type := { grp : Group; users : list string }.

Definition Directory : Type := list Entry.

Definition noGroup : Group := {| ID := ""; Name := "" |}.

Definition notFound : error := errors_New "group not found".

Definition lookup (groupID : string) (d : Directory) : option Entry :=
  find (fun e => String.eqb (ID (grp e)) groupID) d.

Definition amend (groupID : string) (f : Entry -> Entry) (d : Directory) : Directory :=
  map (fun e => if String.eqb (ID (grp e)) groupID then f e else e) d.

Definition nextID (d : Directory) : string :=
  "g" ++ NilZero.string_of_uint (Nat.to_uint (Datatypes.S (length d))).

Definition service : group_service.Service unit Directory := {|
  group_service.CreateGroup := fun _ req d =>
    if String.eqb (CreateName req) "" then
      ((noGroup, Some (errors_New "name is required")), d)
    else
      let g := {| ID := nextID d; Name := CreateName req |} in
      ((g, None), (d ++ [{| grp := g; users := [] |}])%list);
  group_service.GetGroups := fun _ d => ((map grp d, None), d);
  group_service.GetGroup := fun _ groupID d =>
    match lookup groupID d with
    | Some e => ((grp e, None), d)
    | None => ((noGroup, Some notFound), d)
    end;
  group_service.UpdateGroup := fun _ groupID req d =>
    match lookup groupID d with
    | Some e =>
        let g := {| ID := groupID; Name := UpdateName req |} in
        ((g, None), amend groupID (fun e' => {| grp := g; users := users e' |}) d)
    | None => ((noGroup, Some notFound), d)
    end;
  group_service.DeleteGroup := fun _ groupID d =>
    match lookup groupID d with
    | Some _ => (None, filter (fun e => negb (String.eqb (ID (grp e)) groupID)) d)
    | None => (Some notFound, d)
    end;
  group_service.GetGroupMembers := fun _ groupID d =>
    match lookup groupID d with
    | Some e => ((map Build_GroupMember (users e), None), d)
    | None => (([], Some notFound), d)
    end;
  group_service.AddUserToGroup := fun _ groupID userID d =>
    match lookup groupID d with
    | Some _ =>
        (None, amend groupID
                 (fun e => {| grp := grp e; users := (users e ++ [userID])%list |}) d)
    | None => (Some notFound, d)
    end;
  group_service.RemoveUserFromGroup := fun _ groupID userID d =>
    match lookup groupID d with
    | Some _ =>
        (None, amend groupID
                 (fun e => {| grp := grp e;
                              users := filter (fun u => negb (String.eqb u userID)) (users e) |}) d)
    | None => (Some notFound, d)
    end
|}.

(** A service that is out of order: every method fails with [err] and
    leaves the directory as it is. *)
Definition failing (err : error) : group_service.Service unit Directory := {|
  group_service.CreateGroup := fun _ _ d => ((noGroup, Some err), d);
  group_service.GetGroups := fun _ d => (([], Some err), d);
  group_service.GetGroup := fun _ _ d => ((noGroup, Some err), d);
  group_service.UpdateGroup := fun _ _ _ d => ((noGroup, Some err), d);
  group_service.DeleteGroup := fun _ _ d => (Some err, d);
  group_service.GetGroupMembers := fun _ _ d => (([], Some err), d);
  group_service.AddUserToGroup := fun _ _ _ d => (Some err, d);
  group_service.RemoveUserFromGroup := fun _ _ _ d => (Some err, d)
|}.

(** *** A logger that keeps what it is given *)

Definition Log : Type := list (string * list zap.Arg).

Definition recorder : zap.SugaredLogger Log :=
  {| zap.Infow := fun msg keysAndValues l => (l ++ [(msg, keysAndValues)])%list |}.

Definition h : group_handlers.Handler unit Directory Log :=
  group_handlers.New recorder service.

(** A JSON string literal with the content [s] (which needs no
    escape), and the object with one member. *)
Definition quoted (s : string) : string :=
  String json.dquote (s ++ String json.dquote "").

Definition object1 (key value : string) : string :=
  "{" ++ quoted key ++ ":" ++ value ++ "}".

(** Requests. *)
Definition request (params : list (string * string)) (body : string)
    : http.Request unit :=
  {| http.Body := body; http.Context := tt; http.RouteParams := params |}.

(** A directory with the group ["g1"] named ["Engineering"] and one
    user in it. *)
Definition engineering : Directory :=
  [ {| grp := {| ID := "g1"; Name := "Engineering" |}; users := ["u1"] |} ].

End instance.

(* ------------------------------------------------------------------ *)
(** * Properties of the handler *)

Section Properties.

Context `{MT : models.Models}.
Context `{!json.Decodable models.CreateGroupRequest}.
Context `{!json.Decodable models.UpdateGroupRequest}.
Variables Ctx S L : Type.

Import group_handlers.
Local Open Scope Z_scope.

Implicit Types (h : Handler Ctx S L) (l : L) (s : S).
Implicit Types (op : Operation) (r : http.Request Ctx).

(** ** Walking through a method

    A method branches on the path parameters, on the error of the
    decoder and on the error of the service, and on nothing else:
    [walk] unfolds the invocation and splits on each of these in turn, so
    that every goal is one path through the Go function. *)

Ltac expose :=
  unfold serve, method, enter, CreateGroup, GetGroups, GetGroup, UpdateGroup,
    DeleteGroup, GetGroupMembers, AddUserToGroup, RemoveUserFromGroup;
  cbn.

Ltac branch :=
  match goal with
  | |- context [String.eqb ?a ?b] => destruct (String.eqb a b) eqn:?
  | |- context [json.Decode ?b ?z] => destruct (json.Decode b z) as [? [?|]] eqn:?
  | |- context [group_service.CreateGroup ?v ?c ?q ?s] =>
      destruct (group_service.CreateGroup v c q s) as [[? [?|]] ?] eqn:?
  | |- context [group_service.GetGroups ?v ?c ?s] =>
      destruct (group_service.GetGroups v c s) as [[? [?|]] ?] eqn:?
  | |- context [group_service.GetGroup ?v ?c ?g ?s] =>
      destruct (group_service.GetGroup v c g s) as [[? [?|]] ?] eqn:?
  | |- context [group_service.UpdateGroup ?v ?c ?g ?q ?s] =>
      destruct (group_service.UpdateGroup v c g q s) as [[? [?|]] ?] eqn:?
  | |- context [group_service.DeleteGroup ?v ?c ?g ?s] =>
      destruct (group_service.DeleteGroup v c g s) as [[?|] ?] eqn:?
  | |- context [group_service.GetGroupMembers ?v ?c ?g ?s] =>
      destruct (group_service.GetGroupMembers v c g s) as [[? [?|]] ?] eqn:?
  | |- context [group_service.AddUserToGroup ?v ?c ?g ?u ?s] =>
      destruct (group_service.AddUserToGroup v c g u s) as [[?|] ?] eqn:?
  | |- context [group_service.RemoveUserFromGroup ?v ?c ?g ?u ?s] =>
      destruct (group_service.RemoveUserFromGroup v c g u s) as [[?|] ?] eqn:?
  end; cbn.

Ltac walk := expose; repeat branch.

(** An event is in a list of at most two events: take the cases, and
    read the event off the one that is left. *)
Ltac which_event :=
  repeat match goal with
    | E : _ \/ _ |- _ => destruct E
    | E : False |- _ => destruct E
    | E : Decoded _ _ _ = Called _ _ _ |- _ => discriminate E
    | E : Called _ _ _ = Decoded _ _ _ |- _ => discriminate E
    | E : Called _ _ _ = Called _ _ _ |- _ => inversion E; subst; clear E
    | E : Decoded _ _ _ = Decoded _ _ _ |- _ => inversion E; subst; clear E
    | E : Some _ = None |- _ => discriminate E
    | E : None = Some _ |- _ => discriminate E
    | E : Some _ = Some _ |- _ => injection E as ?; subst
    end.

(** The path the hypotheses give: the guards pass, and the decoder and
    the service return what the equations say. *)
Ltac follow :=
  repeat match goal with
    | E : _ <> "" |- _ => apply String.eqb_neq in E
    end;
  expose;
  repeat (match goal with E : _ = _ |- _ => rewrite E end; cbn);
  reflexivity.

(** ** Shared facts *)

(** The response to a failed service call. *)
Lemma failed_call_response h l s op r c ret e :
  In (Called c ret (Some e)) (events (serve h l s op r)) ->
  w (serve h l s op r) = [api_error 500 (failure_message op)].
Proof.
  destruct op; walk; intros Hin; cbn in Hin; which_event; reflexivity.
Qed.


(** A method does not assign to the fields of its receiver. *)
Lemma method_keeps_receiver op r (σ : World Ctx S L) :
  this (snd (runState (method op r) σ)) = this σ.
Proof. destruct op; walk; reflexivity. Qed.

Lemma session_keeps_receiver reqs (σ : World Ctx S L) :
  this (session reqs σ) = this σ.
Proof.
  revert σ. induction reqs as [| [op r] reqs IH]; intros σ; cbn [session].
  - reflexivity.
  - rewrite IH, method_keeps_receiver. reflexivity.
Qed.

(** ** The properties *)

(** C1: whenever the service call of an invocation succeeds, the
    handler answers with the success status of the operation (201 for
    CreateGroup, 200 for the others) and a success envelope whose data
    is the value the service returned: the group for CreateGroup,
    GetGroup and UpdateGroup, the list of groups for GetGroups, the list
    of members for GetGroupMembers, nothing for DeleteGroup,
    AddUserToGroup and RemoveUserFromGroup.  The message of CreateGroup
    is [Group '<name>' created successfully] with the name of the
    returned group.  The call is the one the request makes: the path
    parameters it needs are not empty and the body decodes. *)
Theorem success_response h l s r :
  let svc := groupsSvc h in
  let ctx := http.Context r in
  let groupID := chi.URLParam r "groupID" in
  let userID := chi.URLParam r "userID" in
  let answers := fun op status message data =>
    w (serve h l s op r) =
      [ {| response.StatusCode := status;
           response.Payload := response.Success message data |} ] in
  (forall req g s',
     json.Decode (http.Body r) json.zero = (req, None) ->
     group_service.CreateGroup svc ctx req s = ((g, None), s') ->
     answers OpCreateGroup 201
       ("Group '" ++ models.Name g ++ "' created successfully") (response.group g))
  /\ (forall gs s',
        group_service.GetGroups svc ctx s = ((gs, None), s') ->
        answers OpGetGroups 200 "Success" (response.groups gs))
  /\ (forall g s',
        groupID <> "" ->
        group_service.GetGroup svc ctx groupID s = ((g, None), s') ->
        answers OpGetGroup 200 "Success" (response.group g))
  /\ (forall req g s',
        groupID <> "" ->
        json.Decode (http.Body r) json.zero = (req, None) ->
        group_service.UpdateGroup svc ctx groupID req s = ((g, None), s') ->
        answers OpUpdateGroup 200 "Group updated successfully" (response.group g))
  /\ (forall s',
        groupID <> "" ->
        group_service.DeleteGroup svc ctx groupID s = (None, s') ->
        answers OpDeleteGroup 200 "Group deleted successfully" response.null)
  /\ (forall ms s',
        groupID <> "" ->
        group_service.GetGroupMembers svc ctx groupID s = ((ms, None), s') ->
        answers OpGetGroupMembers 200 "Success" (response.members ms))
  /\ (forall s',
        groupID <> "" -> userID <> "" ->
        group_service.AddUserToGroup svc ctx groupID userID s = (None, s') ->
        answers OpAddUserToGroup 200 "User added to group successfully" response.null)
  /\ (forall s',
        groupID <> "" -> userID <> "" ->
        group_service.RemoveUserFromGroup svc ctx groupID userID s = (None, s') ->
        answers OpRemoveUserFromGroup 200 "User removed from group successfully"
          response.null).
Proof.
  intros svc ctx groupID userID answers.
  subst svc ctx groupID userID answers. cbv beta.
  repeat split; intros; follow.
Qed.

(** C2: whenever the service call of an invocation returns an error,
    the handler answers with status 500 and the error envelope that
    carries the fixed message of the operation and no details; for
    DeleteGroup the message is [Failed to delete group].  The call is
    the one the request makes: the path parameters it needs are not
    empty and the body decodes. *)
Theorem service_failure_response h l s r e :
  let svc := groupsSvc h in
  let ctx := http.Context r in
  let groupID := chi.URLParam r "groupID" in
  let userID := chi.URLParam r "userID" in
  let fails := fun op message =>
    w (serve h l s op r) =
      [ {| response.StatusCode := 500;
           response.Payload := response.Failure "API_ERROR" message response.null |} ] in
  (forall req g s',
     json.Decode (http.Body r) json.zero = (req, None) ->
     group_service.CreateGroup svc ctx req s = ((g, Some e), s') ->
     fails OpCreateGroup "Failed to create group")
  /\ (forall gs s',
        group_service.GetGroups svc ctx s = ((gs, Some e), s') ->
        fails OpGetGroups "Failed to retrieve groups")
  /\ (forall g s',
        groupID <> "" ->
        group_service.GetGroup svc ctx groupID s = ((g, Some e), s') ->
        fails OpGetGroup "Failed to retrieve group")
  /\ (forall req g s',
        groupID <> "" ->
        json.Decode (http.Body r) json.zero = (req, None) ->
        group_service.UpdateGroup svc ctx groupID req s = ((g, Some e), s') ->
        fails OpUpdateGroup "Failed to update group")
  /\ (forall s',
        groupID <> "" ->
        group_service.DeleteGroup svc ctx groupID s = (Some e, s') ->
        fails OpDeleteGroup "Failed to delete group")
  /\ (forall ms s',
        groupID <> "" ->
        group_service.GetGroupMembers svc ctx groupID s = ((ms, Some e), s') ->
        fails OpGetGroupMembers "Failed to retrieve group members")
  /\ (forall s',
        groupID <> "" -> userID <> "" ->
        group_service.AddUserToGroup svc ctx groupID userID s = (Some e, s') ->
        fails OpAddUserToGroup "Failed to add user to group")
  /\ (forall s',
        groupID <> "" -> userID <> "" ->
        group_service.RemoveUserFromGroup svc ctx groupID userID s = (Some e, s') ->
        fails OpRemoveUserFromGroup "Failed to remove user from group").
Proof.
  intros svc ctx groupID userID fails.
  subst svc ctx groupID userID fails. cbv beta.
  repeat split; intros; follow.
Qed.

(** C3, as amended: every invocation of CreateGroup, and every
    invocation of UpdateGroup with a groupID that is not empty, whose
    request body fails JSON decoding is answered with status 400 and the
    message [Invalid request body], and the service is not invoked. *)
Theorem decode_failure_response h l s r :
  (forall req e,
     json.Decode (T := models.CreateGroupRequest) (http.Body r) json.zero
       = (req, Some e) ->
     w (serve h l s OpCreateGroup r) = [api_error 400 "Invalid request body"]
     /\ calls (events (serve h l s OpCreateGroup r)) = []
     /\ backend (serve h l s OpCreateGroup r) = s)
  /\ (forall req e,
        chi.URLParam r "groupID" <> "" ->
        json.Decode (T := models.UpdateGroupRequest) (http.Body r) json.zero
          = (req, Some e) ->
        w (serve h l s OpUpdateGroup r) = [api_error 400 "Invalid request body"]
        /\ calls (events (serve h l s OpUpdateGroup r)) = []
        /\ backend (serve h l s OpUpdateGroup r) = s).
Proof.
  split; intros; repeat split; follow.
Qed.

(** C4: every invocation of GetGroup, UpdateGroup, DeleteGroup or
    GetGroupMembers whose groupID path parameter is empty is answered
    with status 400, the message [Group ID is required] and no payload,
    and the service is not invoked. *)
Theorem missing_group_id h l s op r :
  op = OpGetGroup \/ op = OpUpdateGroup \/ op = OpDeleteGroup \/ op = OpGetGroupMembers ->
  chi.URLParam r "groupID" = "" ->
  w (serve h l s op r) =
    [ {| response.StatusCode := 400;
         response.Payload :=
           response.Failure "API_ERROR" "Group ID is required" response.null |} ]
  /\ calls (events (serve h l s op r)) = []
  /\ backend (serve h l s op r) = s.
Proof.
  intros Hop Hid.
  destruct Hop as [-> | [-> | [-> | ->]]]; expose; rewrite Hid; cbn;
    repeat split; reflexivity.
Qed.

(** C5: every invocation of AddUserToGroup or RemoveUserFromGroup in
    which groupID is empty, userID is empty, or both are, is answered
    with status 400 and the message
    [Both Group ID and User ID are required], and the service is not
    invoked. *)
Theorem missing_group_or_user_id h l s op r :
  op = OpAddUserToGroup \/ op = OpRemoveUserFromGroup ->
  chi.URLParam r "groupID" = "" \/ chi.URLParam r "userID" = "" ->
  w (serve h l s op r) = [api_error 400 "Both Group ID and User ID are required"]
  /\ calls (events (serve h l s op r)) = []
  /\ backend (serve h l s op r) = s.
Proof.
  intros Hop Hid.
  assert (Hor : (String.eqb (chi.URLParam r "groupID") "" || String.eqb (chi.URLParam r "userID") "") = true).
  { destruct Hid as [-> | ->]; [reflexivity | apply orb_true_r]. }
  destruct Hop as [-> | ->]; expose; rewrite Hor; cbn; repeat split; reflexivity.
Qed.

(** C6: every error response of the eight operations, the 400 of a
    client error as well as the 500 of a service error, is an error
    envelope whose code is [API_ERROR] and whose details are null. *)
Theorem error_envelope_shape h l s op r resp :
  In resp (w (serve h l s op r)) ->
  (response.StatusCode resp = 400 \/ response.StatusCode resp = 500 ->
     exists message,
       response.Payload resp = response.Failure "API_ERROR" message response.null)
  /\ (forall code message details,
        response.Payload resp = response.Failure code message details ->
        code = "API_ERROR" /\ details = response.null
        /\ (response.StatusCode resp = 400 \/ response.StatusCode resp = 500)).
Proof.
  destruct op; walk; (intros [<- | []]; cbn; split;
    [ intros [E | E]; try discriminate E; eauto
    | intros code message details E; try discriminate E;
      injection E as <- _ <-; auto ]).
Qed.

(** C7: two invocations of the same operation in both of which the
    service call fails get the same response, whatever the two errors
    are: the response depends on the operation, not on the error. *)
Theorem service_error_not_disclosed op h1 l1 s1 r1 c1 ret1 e1 h2 l2 s2 r2 c2 ret2 e2 :
  In (Called c1 ret1 (Some e1)) (events (serve h1 l1 s1 op r1)) ->
  In (Called c2 ret2 (Some e2)) (events (serve h2 l2 s2 op r2)) ->
  w (serve h1 l1 s1 op r1) = w (serve h2 l2 s2 op r2).
Proof.
  intros H1' H2'.
  rewrite (failed_call_response _ _ _ _ _ _ _ _ H1').
  rewrite (failed_call_response _ _ _ _ _ _ _ _ H2').
  reflexivity.
Qed.


(** C8: in UpdateGroup the check of the path parameter comes before the
    decoding of the body.  With an empty groupID the response is 400
    [Group ID is required] whatever the body holds, and the body is not
    decoded; a decoding, and with it a 400 [Invalid request body],
    occurs only when groupID is not empty, and then the body is decoded
    once. *)
Theorem update_checks_id_before_body h l s r :
  (chi.URLParam r "groupID" = "" ->
     w (serve h l s OpUpdateGroup r) = [api_error 400 "Group ID is required"]
     /\ decodings (events (serve h l s OpUpdateGroup r)) = [])
  /\ (forall body err,
        In (Decoded Ctx body err) (events (serve h l s OpUpdateGroup r)) ->
        chi.URLParam r "groupID" <> "")
  /\ (In (api_error 400 "Invalid request body") (w (serve h l s OpUpdateGroup r)) ->
        chi.URLParam r "groupID" <> "")
  /\ (chi.URLParam r "groupID" <> "" ->
        decodings (events (serve h l s OpUpdateGroup r)) = [http.Body r]).
Proof.
  split; [| split; [| split]].
  - intros Hid. expose. rewrite Hid. split; reflexivity.
  - intros body err Hin Hid. revert Hin. expose. rewrite Hid. cbn. intros [].
  - intros Hin Hid. revert Hin. expose. rewrite Hid. cbn.
    intros [E | []]. discriminate E.
  - intros Hid. apply String.eqb_neq in Hid. expose. rewrite Hid. cbn.
    repeat branch; reflexivity.
Qed.

(** C9: no operation changes the handler: after an invocation, from
    whatever world, the receiver holds the logger and the service it
    held before, and so it does after any number of invocations.  The
    handler has no other field, and what an invocation answers and does
    to the service does not depend on what earlier invocations left in
    the log. *)
Theorem handler_unchanged :
  (forall op r (σ : World Ctx S L),
     this (snd (runState (method op r) σ)) = this σ
     /\ log (this (snd (runState (method op r) σ))) = log (this σ)
     /\ groupsSvc (this (snd (runState (method op r) σ))) = groupsSvc (this σ))
  /\ (forall reqs (σ : World Ctx S L), this (session reqs σ) = this σ)
  /\ (forall op r h l1 l2 s,
        w (serve h l1 s op r) = w (serve h l2 s op r)
        /\ events (serve h l1 s op r) = events (serve h l2 s op r)
        /\ backend (serve h l1 s op r) = backend (serve h l2 s op r)).
Proof.
  split; [| split].
  - intros op r σ. rewrite method_keeps_receiver. auto.
  - exact session_keeps_receiver.
  - intros op r h l1 l2 s. destruct op; walk; auto.
Qed.

(** C10, as amended: CreateGroup and UpdateGroup make no presence check
    on the fields of the decoded body.  Whenever the body decodes into
    the request struct without error, which the empty object does
    whatever fields the struct declares, the request struct is passed to
    the service as it is, whatever its fields hold (in UpdateGroup when
    groupID is not empty); the 400 [Invalid request body] is answered
    only when the decoding fails. *)
Theorem decoded_request_forwarded h l s r :
  (forall req,
     json.Decode (http.Body r) json.zero = (req, None) ->
     exists ret err,
       events (serve h l s OpCreateGroup r) =
         [ Decoded Ctx (http.Body r) None;
           Called (group_service.CallCreateGroup (http.Context r) req) ret err ])
  /\ (forall req,
        chi.URLParam r "groupID" <> "" ->
        json.Decode (http.Body r) json.zero = (req, None) ->
        exists ret err,
          events (serve h l s OpUpdateGroup r) =
            [ Decoded Ctx (http.Body r) None;
              Called (group_service.CallUpdateGroup (http.Context r)
                        (chi.URLParam r "groupID") req) ret err ])
  /\ (In (api_error 400 "Invalid request body") (w (serve h l s OpCreateGroup r)) ->
        exists e,
          snd (json.Decode (T := models.CreateGroupRequest) (http.Body r) json.zero)
          = Some e)
  /\ (In (api_error 400 "Invalid request body") (w (serve h l s OpUpdateGroup r)) ->
        exists e,
          snd (json.Decode (T := models.UpdateGroupRequest) (http.Body r) json.zero)
          = Some e)
  /\ (forall (T : Type) typeName (store : string -> json.Value -> T -> T * option error) v,
        json.decodeStruct typeName store "{}" v = (v, None)).
Proof.
  split; [| split; [| split; [| split]]].
  - intros req Hdec. expose. rewrite Hdec. cbn. repeat branch; eauto.
  - intros req Hid Hdec. apply String.eqb_neq in Hid.
    expose. rewrite Hid. cbn. rewrite Hdec. cbn. repeat branch; eauto.
  - unfold api_error. walk; intros Hin; cbn in Hin; destruct Hin as [E | []];
      try discriminate E; eauto.
  - unfold api_error. walk; intros Hin; cbn in Hin; destruct Hin as [E | []];
      try discriminate E; eauto.
  - intros T typeName store v. reflexivity.
Qed.

(** ** Further properties of the methods *)

(** X1: every method writes exactly one response, on every path, and
    leaves what the writer already holds in place. *)
Theorem one_response op r (σ : World Ctx S L) :
  exists resp, w (snd (runState (method op r) σ)) = (w σ ++ [resp])%list.
Proof. destruct op; walk; eexists; reflexivity. Qed.

(** X2: an invocation calls the service at most once and decodes the
    body at most once.  Without a call the state behind the service is
    the one the invocation started in; with a call it is the state that
    call left. *)
Theorem at_most_one_call h l s op r :
  (length (calls (events (serve h l s op r))) <= 1)%nat
  /\ (length (decodings (events (serve h l s op r))) <= 1)%nat
  /\ (calls (events (serve h l s op r)) = [] -> backend (serve h l s op r) = s)
  /\ (forall c, calls (events (serve h l s op r)) = [c] ->
        backend (serve h l s op r) = snd (perform (groupsSvc h) c s)).
Proof.
  split; [| split; [| split]].
  - destruct op; walk; auto.
  - destruct op; walk; auto.
  - destruct op; walk; intros E; try discriminate E; reflexivity.
  - intros c. destruct op; walk; intros E; try discriminate E;
      injection E as <-; cbn;
      repeat match goal with Q : _ = _ |- _ => rewrite Q end; reflexivity.
Qed.

(** X4: the path parameters reach the service as they are.  GetGroups
    calls the service for every request; GetGroup, DeleteGroup and
    GetGroupMembers call it with the groupID of the route when it is not
    empty, AddUserToGroup and RemoveUserFromGroup with the groupID and
    the userID when neither is empty. *)
Theorem path_parameters_forwarded h l s r :
  let ctx := http.Context r in
  let groupID := chi.URLParam r "groupID" in
  let userID := chi.URLParam r "userID" in
  calls (events (serve h l s OpGetGroups r)) = [group_service.CallGetGroups ctx]
  /\ (groupID <> "" ->
        calls (events (serve h l s OpGetGroup r)) = [group_service.CallGetGroup ctx groupID]
        /\ calls (events (serve h l s OpDeleteGroup r))
           = [group_service.CallDeleteGroup ctx groupID]
        /\ calls (events (serve h l s OpGetGroupMembers r))
           = [group_service.CallGetGroupMembers ctx groupID])
  /\ (groupID <> "" -> userID <> "" ->
        calls (events (serve h l s OpAddUserToGroup r))
        = [group_service.CallAddUserToGroup ctx groupID userID]
        /\ calls (events (serve h l s OpRemoveUserFromGroup r))
           = [group_service.CallRemoveUserFromGroup ctx groupID userID]).
Proof.
  intros ctx groupID userID. subst ctx groupID userID.
  split; [| split].
  - walk; reflexivity.
  - intros Hg. apply String.eqb_neq in Hg.
    repeat split; expose; rewrite Hg; cbn; repeat branch; reflexivity.
  - intros Hg Hu. apply String.eqb_neq in Hg. apply String.eqb_neq in Hu.
    repeat split; expose; rewrite Hg, Hu; cbn; repeat branch; reflexivity.
Qed.

(** X5: CreateGroup and UpdateGroup call the service only with a request
    struct that the decoder returned without an error. *)
Theorem call_follows_decoding h l s r c :
  (In c (calls (events (serve h l s OpCreateGroup r))) ->
     exists req,
       json.Decode (http.Body r) json.zero = (req, None)
       /\ c = group_service.CallCreateGroup (http.Context r) req)
  /\ (In c (calls (events (serve h l s OpUpdateGroup r))) ->
        exists req,
          json.Decode (http.Body r) json.zero = (req, None)
          /\ c = group_service.CallUpdateGroup (http.Context r)
                   (chi.URLParam r "groupID") req).
Proof.
  split; walk; intros Hin; cbn in Hin;
    repeat match goal with E : _ \/ _ |- _ => destruct E | E : False |- _ => destruct E end;
    subst; eauto.
Qed.

(** X6: an invocation depends on the request only through what its
    method reads: the context, the path parameters the method asks for,
    and the body in CreateGroup and UpdateGroup.  GetGroups looks at
    neither parameters nor body, the methods that take their input from
    the path do not look at the body, and CreateGroup does not look at
    the route. *)
Theorem request_read_through_inputs h l s op r1 r2 :
  same_inputs op r1 r2 ->
  serve h l s op r1 = serve h l s op r2.
Proof.
  intros [Hctx Hrest].
  destruct op; cbn in Hrest;
    unfold serve, method, CreateGroup, GetGroups, GetGroup, UpdateGroup,
      DeleteGroup, GetGroupMembers, AddUserToGroup, RemoveUserFromGroup, decodeBody;
    repeat match goal with E : _ /\ _ |- _ => destruct E end;
    repeat match goal with E : _ = _ |- _ => rewrite E; clear E end;
    reflexivity.
Qed.

(** A method whose guard finds a required path parameter empty answers
    400 and returns: nothing is logged, decoded or called. *)
Lemma rejection_step op r (σ : World Ctx S L) :
  missing_params op r = true ->
  sink (snd (runState (method op r) σ)) = sink σ
  /\ backend (snd (runState (method op r) σ)) = backend σ
  /\ events (snd (runState (method op r) σ)) = events σ
  /\ exists message,
       w (snd (runState (method op r) σ)) = (w σ ++ [api_error 400 message])%list.
Proof.
  destruct op; cbn [missing_params]; intros Hm; try discriminate Hm;
    expose; rewrite Hm; cbn; repeat split; eexists; reflexivity.
Qed.

(** X7: a request that lacks a required path parameter is turned away
    before the handler touches anything: the log, the state behind the
    service and the events are as they were, and the one response is a
    400.  Every other request reaches a collaborator: its body is
    decoded or the service is called. *)
Theorem rejected_before_any_effect op r :
  (missing_params op r = true ->
     forall σ : World Ctx S L,
       sink (snd (runState (method op r) σ)) = sink σ
       /\ backend (snd (runState (method op r) σ)) = backend σ
       /\ events (snd (runState (method op r) σ)) = events σ
       /\ exists message,
            w (snd (runState (method op r) σ)) = (w σ ++ [api_error 400 message])%list)
  /\ (missing_params op r = false ->
        forall h l s, events (serve h l s op r) <> []).
Proof.
  split.
  - intros Hm σ. apply rejection_step. exact Hm.
  - destruct op; cbn [missing_params]; intros Hm h l s; expose;
      try rewrite Hm; cbn; repeat branch; discriminate.
Qed.

(** X8: the status of the response tells what happened to the service
    call: 400 when the service was not called, 500 when its call
    returned an error, 200 or 201 when its call succeeded. *)
Theorem status_tells_outcome h l s op r resp :
  In resp (w (serve h l s op r)) ->
  (response.StatusCode resp = 400 <-> calls (events (serve h l s op r)) = [])
  /\ (response.StatusCode resp = 500 <->
        exists c ret e, In (Called c ret (Some e)) (events (serve h l s op r)))
  /\ (response.StatusCode resp = 200 \/ response.StatusCode resp = 201 <->
        exists c ret, In (Called c ret None) (events (serve h l s op r))).
Proof.
  destruct op; walk; intros [<- | []]; cbn;
    (split; [| split]); split;
    try (intros E; discriminate E);
    try (intros [E | E]; discriminate E);
    try reflexivity;
    try (intros _; do 3 eexists; (left + (right; left)); reflexivity);
    try (intros _; do 2 eexists; (left + (right; left)); reflexivity);
    try (intros (? & ? & ? & Hin); which_event);
    try (intros (? & ? & Hin); which_event);
    auto.
Qed.

(** X9: the status of a response is one the method of the operation
    passes: 201 comes from CreateGroup only, and GetGroups, which has
    nothing to validate, does not answer 400. *)
Theorem status_of_operation h l s op r resp :
  In resp (w (serve h l s op r)) ->
  In (response.StatusCode resp) (statuses op)
  /\ (response.StatusCode resp = 201 -> op = OpCreateGroup)
  /\ (op = OpGetGroups -> response.StatusCode resp <> 400).
Proof.
  destruct op; walk; intros [<- | []]; cbn;
    (split; [auto | split; [intros E; try discriminate E; reflexivity |]]);
    intros E; try discriminate E; intros E'; discriminate E'.
Qed.

(** X10: with a logger that keeps what it is given, the error of a
    failed decoding or of a failed service call is in the log: it is the
    first field of the last of the two entries the invocation adds.  The
    decoding and the call are those the request makes. *)
Theorem errors_are_logged (svc : group_service.Service Ctx S)
    (l : instance.Log) s r e :
  let h := New instance.recorder svc in
  let ctx := http.Context r in
  let groupID := chi.URLParam r "groupID" in
  let userID := chi.URLParam r "userID" in
  let logged := fun op =>
    exists received message fields,
      sink (serve h l s op r) =
        (l ++ [received; (message, zap.F (zap.Error e) :: fields)])%list in
  (forall req,
     json.Decode (T := models.CreateGroupRequest) (http.Body r) json.zero
       = (req, Some e) ->
     logged OpCreateGroup)
  /\ (forall req g s',
        json.Decode (http.Body r) json.zero = (req, None) ->
        group_service.CreateGroup svc ctx req s = ((g, Some e), s') ->
        logged OpCreateGroup)
  /\ (forall gs s',
        group_service.GetGroups svc ctx s = ((gs, Some e), s') ->
        logged OpGetGroups)
  /\ (forall g s',
        groupID <> "" ->
        group_service.GetGroup svc ctx groupID s = ((g, Some e), s') ->
        logged OpGetGroup)
  /\ (forall req,
        groupID <> "" ->
        json.Decode (T := models.UpdateGroupRequest) (http.Body r) json.zero
          = (req, Some e) ->
        logged OpUpdateGroup)
  /\ (forall req g s',
        groupID <> "" ->
        json.Decode (http.Body r) json.zero = (req, None) ->
        group_service.UpdateGroup svc ctx groupID req s = ((g, Some e), s') ->
        logged OpUpdateGroup)
  /\ (forall s',
        groupID <> "" ->
        group_service.DeleteGroup svc ctx groupID s = (Some e, s') ->
        logged OpDeleteGroup)
  /\ (forall ms s',
        groupID <> "" ->
        group_service.GetGroupMembers svc ctx groupID s = ((ms, Some e), s') ->
        logged OpGetGroupMembers)
  /\ (forall s',
        groupID <> "" -> userID <> "" ->
        group_service.AddUserToGroup svc ctx groupID userID s = (Some e, s') ->
        logged OpAddUserToGroup)
  /\ (forall s',
        groupID <> "" -> userID <> "" ->
        group_service.RemoveUserFromGroup svc ctx groupID userID s = (Some e, s') ->
        logged OpRemoveUserFromGroup).
Proof.
  intros h ctx groupID userID logged.
  subst h ctx groupID userID logged. cbv beta.
  repeat split; intros;
    repeat match goal with
      | E : _ <> "" |- _ => apply String.eqb_neq in E
      end;
    expose;
    repeat (match goal with E : _ = _ |- _ => rewrite E end; cbn);
    rewrite <- app_assoc; cbn; do 3 eexists; reflexivity.
Qed.

(** X11: with a logger that keeps what it is given, an invocation that
    passes the guard on its path parameters adds two entries to the log,
    the first when the request is received and the second for its
    outcome, on every path. *)
Theorem two_log_entries (svc : group_service.Service Ctx S)
    (l : instance.Log) s op r :
  missing_params op r = false ->
  exists received outcome,
    sink (serve (New instance.recorder svc) l s op r) = (l ++ [received; outcome])%list.
Proof.
  destruct op; cbn [missing_params]; intros Hm; expose;
    try rewrite Hm; cbn; repeat branch;
    rewrite <- app_assoc; cbn; do 2 eexists; reflexivity.
Qed.

(** X12: a run of requests that all lack a required path parameter
    leaves the log and the state behind the service as they were,
    however long it is. *)
Theorem rejected_session_changes_nothing reqs (σ : World Ctx S L) :
  Forall (fun req => missing_params (fst req) (snd req) = true) reqs ->
  sink (session reqs σ) = sink σ /\ backend (session reqs σ) = backend σ.
Proof.
  intros Hall. revert σ.
  induction Hall as [| [op r] reqs Hm _ IH]; intros σ; cbn [session].
  - split; reflexivity.
  - cbn in Hm. destruct (IH (snd (runState (method op r) (next σ)))) as [-> ->].
    destruct (rejection_step op r (next σ) Hm) as (-> & -> & _).
    split; reflexivity.
Qed.

(** X13: a 400 does not depend on the handler, the log or the service:
    the request that one invocation answers with a 400 gets the same
    response from every invocation of the operation. *)
Theorem client_error_independent_of_service op r h1 l1 s1 h2 l2 s2 resp :
  In resp (w (serve h1 l1 s1 op r)) ->
  response.StatusCode resp = 400 ->
  w (serve h2 l2 s2 op r) = [resp].
Proof.
  destruct op; walk; intros [<- | []] E; try discriminate E; reflexivity.
Qed.

(** [chi.URLParam] gives the empty string for a key the route does not
    bind. *)
Lemma URLParam_unbound (r : http.Request Ctx) (key : string) :
  (forall kv, In kv (http.RouteParams r) -> fst kv <> key) ->
  chi.URLParam r key = "".
Proof.
  intros Hfree. unfold chi.URLParam.
  destruct (find _ _) as [kv |] eqn:Efind; [| reflexivity].
  apply find_some in Efind. destruct Efind as [Hin Heq].
  apply in_rev in Hin. apply String.eqb_eq in Heq.
  destruct (Hfree kv Hin Heq).
Qed.

(** X14: a route that does not bind groupID at all is treated like an
    empty groupID: every method that requires the parameter answers 400
    without decoding the body or calling the service. *)
Theorem unbound_group_id_rejected h l s op r :
  op <> OpCreateGroup -> op <> OpGetGroups ->
  (forall kv, In kv (http.RouteParams r) -> fst kv <> "groupID") ->
  events (serve h l s op r) = []
  /\ exists message, w (serve h l s op r) = [api_error 400 message].
Proof.
  intros Hc Hg Hfree.
  assert (Hm : missing_params op r = true).
  { destruct op; cbn [missing_params]; try congruence;
      rewrite URLParam_unbound by exact Hfree; reflexivity. }
  destruct (rejection_step op r (enter h l s) Hm) as (_ & _ & Hev & Hw).
  split; [exact Hev | exact Hw].
Qed.

End Properties.

(* ------------------------------------------------------------------ *)
(** * Runs on the instance *)

Import group_handlers.

(** POST /groups with the body [{"name":"Engineering"}], the service
    returning the group g1: 201 and the group in the envelope. *)
Lemma success_response_witness :
  let r := instance.request [] (instance.object1 "name" (instance.quoted "Engineering")) in
  let g := {| instance.ID := "g1"; instance.Name := "Engineering" |} in
  w (serve instance.h [] [] OpCreateGroup r) =
    [ {| response.StatusCode := 201;
         response.Payload :=
           response.Success "Group 'Engineering' created successfully"
             (response.group (MT := instance.Models) g) |} ].
Proof.
  intros r g.
  refine (proj1 (success_response instance.h [] [] r)
            {| instance.CreateName := "Engineering" |} g
            [ {| instance.grp := g; instance.users := [] |} ] _ _).
  - reflexivity.
  - reflexivity.
Defined.

(** DELETE /groups/g1 with a service that fails: 500 and the message of
    the operation. *)
Lemma service_failure_response_witness :
  let e := errors_New "okta: 503 Service Unavailable" in
  let h := New instance.recorder (instance.failing e) in
  let r := instance.request [("groupID", "g1")] "" in
  w (serve h [] instance.engineering OpDeleteGroup r) =
    [ {| response.StatusCode := 500;
         response.Payload :=
           response.Failure "API_ERROR" "Failed to delete group"
             (response.null (MT := instance.Models)) |} ].
Proof.
  intros e h r.
  refine (proj1 (proj2 (proj2 (proj2 (proj2
            (service_failure_response h [] instance.engineering r e)))))
            instance.engineering _ _).
  - discriminate.
  - reflexivity.
Defined.

(** C3 as it is stated does not hold: PUT /groups/ with an empty groupID
    and a body that stops after the opening brace.  The body fails JSON
    decoding, and UpdateGroup answers [Group ID is required], not
    [Invalid request body]. *)
Lemma undecodable_body_without_group_id :
  let r := instance.request [] "{" in
  json.Decode (T := instance.UpdateGroupRequest) (http.Body r) json.zero
    = ({| instance.UpdateName := "" |}, Some json.ErrUnexpectedEOF)
  /\ w (serve instance.h [] instance.engineering OpUpdateGroup r)
     = [api_error 400 "Group ID is required"]
  /\ w (serve instance.h [] instance.engineering OpUpdateGroup r)
     <> [api_error 400 "Invalid request body"].
Proof.
  cbv zeta. split; [| split].
  - vm_compute. reflexivity.
  - vm_compute. reflexivity.
  - vm_compute. intros E. discriminate E.
Qed.

(** POST /groups with a body that stops after the opening brace. *)
Lemma decode_failure_response_witness :
  let r := instance.request [] "{" in
  w (serve instance.h [] instance.engineering OpCreateGroup r)
    = [api_error 400 "Invalid request body"]
  /\ calls (events (serve instance.h [] instance.engineering OpCreateGroup r)) = []
  /\ backend (serve instance.h [] instance.engineering OpCreateGroup r) = instance.engineering.
Proof.
  intros r.
  refine (proj1 (decode_failure_response instance.h [] instance.engineering r)
            {| instance.CreateName := "" |} json.ErrUnexpectedEOF _).
  vm_compute. reflexivity.
Defined.

(** GET /groups/ with no groupID. *)
Lemma missing_group_id_witness :
  let r := instance.request [("groupID", "")] "" in
  w (serve instance.h [] instance.engineering OpGetGroup r) =
    [ {| response.StatusCode := 400;
         response.Payload :=
           response.Failure "API_ERROR" "Group ID is required" response.null |} ]
  /\ calls (events (serve instance.h [] instance.engineering OpGetGroup r)) = []
  /\ backend (serve instance.h [] instance.engineering OpGetGroup r) = instance.engineering.
Proof.
  intros r.
  refine (missing_group_id instance.h [] instance.engineering (op := OpGetGroup) r _ _).
  - left. reflexivity.
  - reflexivity.
Defined.

(** PUT /groups/g1/members/ with no userID. *)
Lemma missing_group_or_user_id_witness :
  let r := instance.request [("groupID", "g1"); ("userID", "")] "" in
  w (serve instance.h [] instance.engineering OpAddUserToGroup r)
    = [api_error 400 "Both Group ID and User ID are required"]
  /\ calls (events (serve instance.h [] instance.engineering OpAddUserToGroup r)) = []
  /\ backend (serve instance.h [] instance.engineering OpAddUserToGroup r)
     = instance.engineering.
Proof.
  intros r.
  refine (missing_group_or_user_id instance.h [] instance.engineering (op := OpAddUserToGroup) r _ _).
  - left. reflexivity.
  - right. reflexivity.
Defined.

(** The one response to GET /groups/g7, a group the directory does not
    have, is an error envelope with the code and no details. *)
Lemma error_envelope_shape_witness :
  let r := instance.request [("groupID", "g7")] "" in
  let resp := api_error 500 "Failed to retrieve group" in
  In resp (w (serve instance.h [] instance.engineering OpGetGroup r))
  /\ exists message,
       response.Payload resp = response.Failure "API_ERROR" message response.null.
Proof.
  intros r resp.
  assert (Hin : In resp (w (serve instance.h [] instance.engineering OpGetGroup r))).
  { vm_compute. left. reflexivity. }
  split; [exact Hin |].
  apply (proj1 (error_envelope_shape instance.h [] instance.engineering OpGetGroup r resp Hin)).
  right. reflexivity.
Defined.

(** Two runs of DELETE /groups/g1 that differ in the error of the service
    only. *)
Lemma service_error_not_disclosed_witness :
  let e1 := errors_New "okta: 401 Unauthorized: invalid token 00a1b2" in
  let e2 := errors_New "dial tcp 10.0.0.7:443: i/o timeout" in
  let r := instance.request [("groupID", "g1")] "" in
  w (serve (New instance.recorder (instance.failing e1)) [] instance.engineering OpDeleteGroup r)
  = w (serve (New instance.recorder (instance.failing e2)) [] instance.engineering OpDeleteGroup r).
Proof.
  intros e1 e2 r.
  refine (service_error_not_disclosed OpDeleteGroup
            (New instance.recorder (instance.failing e1)) [] instance.engineering r
            (group_service.CallDeleteGroup (MT := instance.Models) tt "g1") response.null e1
            (New instance.recorder (instance.failing e2)) [] instance.engineering r
            (group_service.CallDeleteGroup (MT := instance.Models) tt "g1") response.null e2 _ _).
  - vm_compute. left. reflexivity.
  - vm_compute. left. reflexivity.
Defined.

(** PUT /groups/ with no groupID and a body that is not JSON: the body is
    not looked at. *)
Lemma update_checks_id_before_body_witness :
  let r := instance.request [] "{" in
  w (serve instance.h [] instance.engineering OpUpdateGroup r)
    = [api_error 400 "Group ID is required"]
  /\ decodings (events (serve instance.h [] instance.engineering OpUpdateGroup r)) = [].
Proof.
  intros r.
  refine (proj1 (update_checks_id_before_body instance.h [] instance.engineering r) _).
  reflexivity.
Defined.

(** C10 as it is stated does not hold.  [[]] is a syntactically valid
    JSON text and its decoding into a struct fails, whatever fields the
    struct declares: CreateGroup answers 400 [Invalid request body]
    without calling the service.  And [{}] is valid and decodes, yet
    UpdateGroup with an empty groupID does not pass it on to the
    service. *)
Lemma valid_json_fails_to_decode :
  let array := instance.request [] "[]" in
  let object := instance.request [("groupID", "")] "{}" in
  json.Valid (http.Body array) = true
  /\ (forall (T : Type) typeName (store : string -> json.Value -> T -> T * option error) v,
        snd (json.decodeStruct typeName store (http.Body array) v)
        = Some (errors_New
                  ("json: cannot unmarshal array into Go value of type models." ++ typeName)))
  /\ w (serve instance.h [] [] OpCreateGroup array) = [api_error 400 "Invalid request body"]
  /\ calls (events (serve instance.h [] [] OpCreateGroup array)) = []
  /\ json.Valid (http.Body object) = true
  /\ json.Decode (T := instance.UpdateGroupRequest) (http.Body object) json.zero
     = ({| instance.UpdateName := "" |}, None)
  /\ w (serve instance.h [] instance.engineering OpUpdateGroup object)
     = [api_error 400 "Group ID is required"]
  /\ events (serve instance.h [] instance.engineering OpUpdateGroup object) = [].
Proof.
  cbv zeta. repeat split; try (vm_compute; reflexivity).
Qed.

(** POST /groups with the body [{}]: the request goes to the service with
    its empty name. *)
Lemma decoded_request_forwarded_witness :
  let r := instance.request [] "{}" in
  json.Decode (http.Body r) json.zero = ({| instance.CreateName := "" |}, None)
  /\ exists ret err,
       events (serve instance.h [] [] OpCreateGroup r) =
         [ Decoded unit "{}" None;
           Called (group_service.CallCreateGroup (MT := instance.Models) tt {| instance.CreateName := "" |}) ret err ].
Proof.
  intros r.
  assert (Hdec : json.Decode (http.Body r) json.zero
                 = ({| instance.CreateName := "" |}, None)).
  { reflexivity. }
  split; [exact Hdec |].
  exact (proj1 (decoded_request_forwarded instance.h [] [] r) _ Hdec).
Defined.

(** DELETE /groups/g1 on the directory with that one group: one call,
    and the directory is left as the call left it, empty. *)
Lemma at_most_one_call_witness :
  let r := instance.request [("groupID", "g1")] "" in
  backend (serve instance.h [] instance.engineering OpDeleteGroup r) = [].
Proof.
  intros r.
  exact (proj2 (proj2 (proj2
           (at_most_one_call instance.h [] instance.engineering OpDeleteGroup r)))
           (group_service.CallDeleteGroup (MT := instance.Models) tt "g1") eq_refl).
Defined.

(** PUT /groups/g1/members/u2. *)
Lemma path_parameters_forwarded_witness :
  let r := instance.request [("groupID", "g1"); ("userID", "u2")] "" in
  calls (events (serve instance.h [] instance.engineering OpAddUserToGroup r))
  = [group_service.CallAddUserToGroup (MT := instance.Models) tt "g1" "u2"].
Proof.
  intros r.
  refine (proj1 (proj2 (proj2
            (path_parameters_forwarded instance.h [] instance.engineering r)) _ _)).
  - discriminate.
  - discriminate.
Defined.

(** POST /groups: the call carries the request the decoder returned. *)
Lemma call_follows_decoding_witness :
  let r := instance.request [] (instance.object1 "name" (instance.quoted "Engineering")) in
  exists req,
    json.Decode (http.Body r) json.zero = (req, None)
    /\ group_service.CallCreateGroup (MT := instance.Models) tt
         {| instance.CreateName := "Engineering" |}
       = group_service.CallCreateGroup (http.Context r) req.
Proof.
  intros r.
  apply (proj1 (call_follows_decoding instance.h [] [] r _)).
  vm_compute. left. reflexivity.
Defined.

(** GET /groups/g1 with and without a body. *)
Lemma request_read_through_inputs_witness :
  serve instance.h [] instance.engineering OpGetGroup
    (instance.request [("groupID", "g1")] "")
  = serve instance.h [] instance.engineering OpGetGroup
      (instance.request [("userID", "u9"); ("groupID", "g1")] "not looked at").
Proof.
  apply request_read_through_inputs. split; reflexivity.
Defined.

(** PUT /groups/ with an empty groupID. *)
Lemma rejected_before_any_effect_witness :
  let r := instance.request [("groupID", "")] "{}" in
  sink (serve instance.h [] instance.engineering OpUpdateGroup r) = []
  /\ backend (serve instance.h [] instance.engineering OpUpdateGroup r) = instance.engineering.
Proof.
  intros r.
  destruct (proj1 (rejected_before_any_effect (MT := instance.Models)
                     instance.Directory instance.Log OpUpdateGroup r) eq_refl
              (enter instance.h [] instance.engineering)) as (Hs & Hb & _).
  split; [exact Hs | exact Hb].
Defined.

(** GET /groups/g7 is answered 500: the call of the service failed. *)
Lemma status_tells_outcome_witness :
  let r := instance.request [("groupID", "g7")] "" in
  exists c ret e,
    In (Called c ret (Some e)) (events (serve instance.h [] instance.engineering OpGetGroup r)).
Proof.
  intros r.
  refine (proj1 (proj1 (proj2
            (status_tells_outcome instance.h [] instance.engineering OpGetGroup r
               (api_error 500 "Failed to retrieve group") _))) _).
  - vm_compute. left. reflexivity.
  - reflexivity.
Defined.

(** GET /groups: the one response has a status of the operation. *)
Lemma status_of_operation_witness :
  let r := instance.request [] "" in
  let resp :=
    {| response.StatusCode := 200;
       response.Payload :=
         response.Success "Success"
           (response.groups (MT := instance.Models)
              [ {| instance.ID := "g1"; instance.Name := "Engineering" |} ]) |} in
  In resp (w (serve instance.h [] instance.engineering OpGetGroups r))
  /\ In (response.StatusCode resp) (statuses OpGetGroups).
Proof.
  intros r resp.
  assert (Hin : In resp (w (serve instance.h [] instance.engineering OpGetGroups r))).
  { vm_compute. left. reflexivity. }
  split; [exact Hin |].
  exact (proj1 (status_of_operation instance.h [] instance.engineering OpGetGroups r resp Hin)).
Defined.

(** DELETE /groups/g1 with a service that fails. *)
Lemma errors_are_logged_witness :
  let e := errors_New "okta: 401 Unauthorized" in
  let r := instance.request [("groupID", "g1")] "" in
  exists received message fields,
    sink (serve (New instance.recorder (instance.failing e)) [] instance.engineering
            OpDeleteGroup r)
    = [received; (message, zap.F (zap.Error e) :: fields)].
Proof.
  intros e r.
  refine (proj1 (proj2 (proj2 (proj2 (proj2 (proj2 (proj2
            (errors_are_logged (instance.failing e) [] instance.engineering r e)))))))
            instance.engineering _ _).
  - discriminate.
  - reflexivity.
Defined.

(** GET /groups. *)
Lemma two_log_entries_witness :
  let r := instance.request [] "" in
  exists received outcome,
    sink (serve (New instance.recorder instance.service) [] instance.engineering OpGetGroups r)
    = [received; outcome].
Proof.
  intros r.
  apply (two_log_entries instance.service [] instance.engineering OpGetGroups r).
  reflexivity.
Defined.

(** Three requests in a row, each without a parameter it needs. *)
Lemma rejected_session_changes_nothing_witness :
  let reqs :=
    [ (OpGetGroup, instance.request [] "");
      (OpAddUserToGroup, instance.request [("groupID", "g1")] "");
      (OpUpdateGroup, instance.request [("groupID", "")] "{}") ] in
  let σ := enter instance.h [] instance.engineering in
  sink (session reqs σ) = [] /\ backend (session reqs σ) = instance.engineering.
Proof.
  intros reqs σ.
  apply (rejected_session_changes_nothing (reqs := reqs) σ).
  repeat constructor.
Defined.

(** POST /groups with the body [[]]: 400 also when the service is down. *)
Lemma client_error_independent_of_service_witness :
  let r := instance.request [] "[]" in
  w (serve (New instance.recorder (instance.failing (errors_New "down"))) [] [] OpCreateGroup r)
  = [api_error 400 "Invalid request body"].
Proof.
  intros r.
  apply (client_error_independent_of_service OpCreateGroup r
           instance.h [] instance.engineering).
  - vm_compute. left. reflexivity.
  - reflexivity.
Defined.

(** DELETE on a route that binds userID only. *)
Lemma unbound_group_id_rejected_witness :
  let r := instance.request [("userID", "u1")] "" in
  events (serve instance.h [] instance.engineering OpRemoveUserFromGroup r) = []
  /\ exists message,
       w (serve instance.h [] instance.engineering OpRemoveUserFromGroup r)
       = [api_error 400 message].
Proof.
  intros r.
  apply (unbound_group_id_rejected instance.h [] instance.engineering
           (op := OpRemoveUserFromGroup) r).
  - discriminate.
  - discriminate.
  - intros kv [<- | []]. discriminate.
Defined.
